(** * Lab_Calibration: CalibrationClasses.py

    A shallow embedding of [Calibration] and [CalibratedModel] and the
    properties of the calibration procedure.

    The Python code is glue around collaborators that live outside the file:
    numpy's random generator, scipy's normal density, the survival simulator
    ([MultiSurvivalModelClasses.MultiCohort]), SimPy's CSV functions and
    summary statistics, and the constants of [CalibrationSettings].  They are
    gathered in the records [Env] and [Settings]; the code of the two classes
    is written once, over any number type with the arithmetic the code uses
    ([Number]), and read at two instances:
    - [float], the binary64 numbers the program computes with;
    - [R], the exact arithmetic in which the statistical identities hold.

    Embedded: [Calibration.__init__], [sample_posterior],
    [get_effective_sample_size], [CalibratedModel.__init__], [simulate] and
    [get_mortality_estimate_credible_interval].
    [get_mean_survival_time_proj_interval] only forwards two calls to an
    object of the simulator and is left out. *)

From Stdlib Require Import String ZArith List Bool Lia.
From Stdlib Require Import Floats.
From Stdlib Require Import Reals Lra Psatz.
Import ListNotations.

Set Implicit Arguments.
Set Warnings "-inexact-float".

(** ** Python values and control *)

(** The exceptions that can leave the two classes.  [External] stands for
    whatever a collaborator raises. *)
Inductive exn : Type :=
| IndexError
| TypeError
| ValueError
| OverflowError
| External (what : string).

Inductive Result (A : Type) : Type :=
| Ok (a : A)
| Raise (e : exn).
Arguments Ok {A} a.
Arguments Raise {A} e.

(** A computation over a world [W]: an exception leaves the world as it was
    when it was raised (Python does not roll assignments back). *)
Definition M (W A : Type) : Type := W -> W * Result A.

Definition ret {W A} (a : A) : M W A := fun w => (w, Ok a).

Definition raise {W A} (e : exn) : M W A := fun w => (w, Raise e).

Definition bind {W A B} (c : M W A) (k : A -> M W B) : M W B :=
  fun w =>
    match c w with
    | (w1, Ok a) => k a w1
    | (w1, Raise e) => (w1, Raise e)
    end.

Definition gets {W A} (f : W -> A) : M W A := fun w => (w, Ok (f w)).

Definition modify {W} (f : W -> W) : M W unit := fun w => (f w, Ok tt).

Definition lift {W A} (r : Result A) : M W A := fun w => (w, r).

(** A call that reads the world and may raise. *)
Definition reads {W A} (f : W -> Result A) : M W A := fun w => (w, f w).

(** Sequencing of calls that only return or raise. *)
Definition and_then {A B} (r : Result A) (k : A -> Result B) : Result B :=
  match r with
  | Ok a => k a
  | Raise e => Raise e
  end.

Declare Scope py_scope.
Delimit Scope py_scope with py.
Notation "x <- c ;; k" := (bind c (fun x => k))
  (at level 61, c at next level, right associativity) : py_scope.
Notation "c ;; k" := (bind c (fun _ => k))
  (at level 61, right associativity) : py_scope.
Local Open Scope py_scope.

(** A [for] loop that collects one value per iteration. *)
Fixpoint for_each {W A B} (l : list A) (body : A -> M W B) : M W (list B) :=
  match l with
  | [] => ret []
  | x :: rest =>
      y <- body x ;;
      ys <- for_each rest body ;;
      ret (y :: ys)
  end.

(** [range(n)] *)
Definition py_range (n : nat) : list Z := map Z.of_nat (seq 0 n).

(** [l[i]] with Python's negative indices. *)
Definition getitem {A} (l : list A) (i : Z) : Result A :=
  let len := Z.of_nat (length l) in
  let j := if (i <? 0)%Z then (len + i)%Z else i in
  if ((0 <=? j) && (j <? len))%Z
  then match nth_error l (Z.to_nat j) with
       | Some a => Ok a
       | None => Raise IndexError
       end
  else Raise IndexError.

(** ** Numbers *)

(** The arithmetic the two classes use.  [to_int] is [astype(int)];
    [fis_finite] is [np.isfinite], which numpy consults before it draws from
    an interval. *)
Class Number (F : Type) : Type := {
  fzero : F;
  fone : F;
  fadd : F -> F -> F;
  fsub : F -> F -> F;
  fmul : F -> F -> F;
  fdiv : F -> F -> F;
  to_int : F -> Z;
  fis_finite : F -> bool
}.

(** Truncation of a binary64 number to int64, as the C cast numpy performs;
    what is not representable gives the smallest int64 (x86-64). *)
Definition float_to_int (x : float) : Z :=
  let int_min := (- 2 ^ 63)%Z in
  match Prim2SF x with
  | S754_zero _ => 0%Z
  | S754_finite s m e =>
      let a := match e with
               | Z0 => Zpos m
               | Zpos p => (Zpos m * 2 ^ Zpos p)%Z
               | Zneg p => (Zpos m / 2 ^ Zpos p)%Z
               end in
      let t := if s then (- a)%Z else a in
      if ((int_min <=? t) && (t <? 2 ^ 63))%Z then t else int_min
  | _ => int_min
  end.

#[export] Instance Number_float : Number float := {
  fzero := 0%float;
  fone := 1%float;
  fadd := PrimFloat.add;
  fsub := PrimFloat.sub;
  fmul := PrimFloat.mul;
  fdiv := PrimFloat.div;
  to_int := float_to_int;
  fis_finite := PrimFloat.is_finite
}.

(** The same cast on an exact number: truncation toward zero, and the
    smallest int64 for what lies outside the range of int64. *)
Definition R_to_int (x : R) : Z :=
  let int_min := (- 2 ^ 63)%Z in
  let t := if Rle_dec 0 x then Int_part x else (- Int_part (- x))%Z in
  if ((int_min <=? t) && (t <? 2 ^ 63))%Z then t else int_min.

#[export] Instance Number_R : Number R := {
  fzero := 0%R;
  fone := 1%R;
  fadd := Rplus;
  fsub := Rminus;
  fmul := Rmult;
  fdiv := Rdiv;
  to_int := R_to_int;
  fis_finite := fun _ => true
}.

(** Python's [sum(l)]: the elements added to 0 from the left. *)
Definition py_sum {F} `{Number F} (l : list F) : F := fold_left fadd l fzero.

(** [np.sum(a)].  An array of fewer than eight elements is added from the
    left, as here.  numpy adds a longer array in blocks of eight and in
    pairs: that order changes the last bits of a binary64 result and nothing
    of an exact one, so on binary64 numbers this definition stands for
    [np.sum] on arrays of fewer than eight elements only. *)
Definition np_sum {F} `{Number F} (a : list F) : F := py_sum a.

(** [np.divide(a, d)]: element-wise, never raises. *)
Definition np_divide {F} `{Number F} (a : list F) (d : F) : list F :=
  map (fun x => fdiv x d) a.

(** [a ** 2] on an array. *)
Definition np_square {F} `{Number F} (a : list F) : list F :=
  map (fun x => fmul x x) a.

(** An attribute that holds a Python list until the calibration replaces it
    by a numpy array. *)
Inductive pyseq (F : Type) : Type :=
| PyList (l : list F)
| NdArray (a : list F).
Arguments PyList {F} l.
Arguments NdArray {F} a.

Definition items {F} (s : pyseq F) : list F :=
  match s with PyList l => l | NdArray a => a end.

(** ** Collaborators *)

(** A cell of a CSV row. *)
Inductive cell (F : Type) : Type :=
| CStr (s : string)
| CInt (z : Z)
| CNum (x : F).
Arguments CStr {F} s.
Arguments CInt {F} z.
Arguments CNum {F} x.

(** The constants of [CalibrationSettings]. *)
Record Settings (F : Type) : Type := {
  PRIOR_L : F;
  PRIOR_U : F;
  PRIOR_N : nat;
  SIM_POP_SIZE : nat;
  TIME_STEPS : nat;
  OBS_MEAN : F;
  OBS_STDEV : F
}.

(** The libraries the code calls; [G] is the state of numpy's global
    generator.
    - [np_random_seed s]: the generator after [np.random.seed(s)];
    - [np_random_sample]: one draw from the unit interval;
    - [np_random_choice g n size p]:
      [np.random.choice(a=range(0, n), size=size, replace=True, p=p)];
    - [norm_pdf x loc scale]: [scipy.stats.norm.pdf];
    - [MultiCohort_init ids pop_sizes mortality_probs]: whether the
      constructor of [MultiCohort] returns;
    - [MultiCohort_simulate g ids pop_sizes mortality_probs n_time_steps]:
      [simulate(n_time_steps)] on that multi cohort, giving
      [multiCohortOutcomes.meanSurvivalTimes];
    - [read_csv_cols file_name n_cols if_ignore_first_row if_convert_float]:
      the columns read, each a numeric array; a reader that hands back a
      column it could not convert to numbers is not described by this
      record;
    - [SummaryStat_get_mean data], [SummaryStat_get_PI data alpha]. *)
Record Env (F G : Type) : Type := {
  np_random_seed : Z -> G;
  np_random_sample : G -> F * G;
  np_random_choice : G -> nat -> nat -> list F -> G * Result (list nat);
  norm_pdf : F -> F -> F -> F;
  MultiCohort_init : list Z -> list nat -> list F -> Result unit;
  MultiCohort_simulate :
    G -> list Z -> list nat -> list F -> nat -> G * Result (list F);
  read_csv_cols : string -> nat -> bool -> bool -> Result (list (list F));
  SummaryStat_get_mean : list F -> Result F;
  SummaryStat_get_PI : list F -> F -> Result (F * F)
}.

(** What a method runs in: the object, the generator and the files written. *)
Record World (F G Obj : Type) : Type := {
  self : Obj;
  rng : G;
  files : list (string * list (list (cell F)))
}.

Section Runtime.
Context {F G Obj : Type} `{Number F}.
Variable E : Env F G.

Definition update (f : Obj -> Obj) : M (World F G Obj) unit :=
  modify (fun w => {| self := f (self w); rng := rng w; files := files w |}).

Definition with_rng {A} (f : G -> G * Result A) : M (World F G Obj) A :=
  fun w =>
    let (g, r) := f (rng w) in
    ({| self := self w; rng := g; files := files w |}, r).

(** [np.random.seed(s)] *)
Definition seed (s : Z) : M (World F G Obj) unit :=
  with_rng (fun _ => (np_random_seed E s, Ok tt)).

Fixpoint draws (n : nat) (g : G) : list F * G :=
  match n with
  | O => ([], g)
  | S k =>
      let (u, g1) := np_random_sample E g in
      let (us, g2) := draws k g1 in
      (u :: us, g2)
  end.

(** [np.random.uniform(low, high, size)]: numpy first forms the range
    [high - low] and raises an [OverflowError] when it is not finite, before
    anything is drawn; otherwise each value is [low + range * u] for the
    next draw [u]. *)
Definition np_random_uniform (low high : F) (size : nat)
  : M (World F G Obj) (list F) :=
  let range := fsub high low in
  if fis_finite range
  then with_rng (fun g =>
         let (us, g') := draws size g in
         (g', Ok (map (fun u => fadd low (fmul range u)) us)))
  else raise OverflowError.

(** [IO.write_csv(file_name, rows)] *)
Definition write_csv (file_name : string) (rows : list (list (cell F)))
  : M (World F G Obj) unit :=
  modify (fun w => {| self := self w; rng := rng w;
                      files := files w ++ [(file_name, rows)] |}).
End Runtime.

(** ** class Calibration *)

Module Calibration.

(** The attributes set by [__init__]. *)
Record t (F : Type) : Type := {
  cohortIDs : list Z;
  mortalitySamples : list F;
  normalizedWeights : pyseq F;
  mortalityResamples : list F
}.

(** [Calibration()] *)
Definition init {F} : t F :=
  {| cohortIDs := [];
     mortalitySamples := [];
     normalizedWeights := PyList [];
     mortalityResamples := [] |}.

Section Methods.
Context {F G : Type} `{Number F}.
Variable E : Env F G.
Variable Sets : Settings F.

Local Abbreviation world := (World F G (t F)).

Definition set_cohortIDs (ids : list Z) : M world unit :=
  update (fun c => {| cohortIDs := ids;
                      mortalitySamples := mortalitySamples c;
                      normalizedWeights := normalizedWeights c;
                      mortalityResamples := mortalityResamples c |}).

Definition set_mortalitySamples (xs : list F) : M world unit :=
  update (fun c => {| cohortIDs := cohortIDs c;
                      mortalitySamples := xs;
                      normalizedWeights := normalizedWeights c;
                      mortalityResamples := mortalityResamples c |}).

Definition set_normalizedWeights (ws : pyseq F) : M world unit :=
  update (fun c => {| cohortIDs := cohortIDs c;
                      mortalitySamples := mortalitySamples c;
                      normalizedWeights := ws;
                      mortalityResamples := mortalityResamples c |}).

(** Lines 43-51: the multi cohort is built and simulated; what the
    calibration reads from it afterwards is [meanSurvivalTimes]. *)
Definition simulate_multi_cohort : M world (list F) :=
  ids <- gets (fun w => cohortIDs (self w)) ;;
  probs <- gets (fun w => mortalitySamples (self w)) ;;
  let pop_sizes := repeat (SIM_POP_SIZE Sets) (PRIOR_N Sets) in
  lift (MultiCohort_init E ids pop_sizes probs) ;;
  with_rng (fun g =>
    MultiCohort_simulate E g ids pop_sizes probs (TIME_STEPS Sets)).

(** Lines 53-69: one likelihood weight per cohort id. *)
Definition likelihood_weights (meanSurvivalTimes : list F)
  : M world (list F) :=
  ids <- gets (fun w => cohortIDs (self w)) ;;
  for_each ids (fun cohort_id =>
    mean <- lift (getitem meanSurvivalTimes cohort_id) ;;
    ret (norm_pdf E (OBS_MEAN Sets) mean (OBS_STDEV Sets))).

Definition csv_header : list (cell F) :=
  [CStr "Cohort ID"; CStr "Likelihood Weights"; CStr "Mortality Prob"]%string.

(** Lines 75-80: one row per drawn mortality probability. *)
Definition csv_rows : M world (list (list (cell F))) :=
  n <- gets (fun w => length (mortalitySamples (self w))) ;;
  for_each (py_range n) (fun i =>
    id <- reads (fun w => getitem (cohortIDs (self w)) i) ;;
    wt <- reads (fun w => getitem (items (normalizedWeights (self w))) i) ;;
    p <- reads (fun w => getitem (mortalitySamples (self w)) i) ;;
    ret [CInt id; CNum wt; CNum p]).

(** Lines 31-69: seed, ids, prior draws, simulation, raw weights. *)
Definition raw_weights (n_samples : nat) : M world (list F) :=
  seed E 1 ;;
  set_cohortIDs (py_range n_samples) ;;
  samples <- np_random_uniform E (PRIOR_L Sets) (PRIOR_U Sets) (PRIOR_N Sets) ;;
  set_mortalitySamples samples ;;
  meanSurvivalTimes <- simulate_multi_cohort ;;
  likelihood_weights meanSurvivalTimes.

(** Lines 71-85: normalization and the CSV report. *)
Definition normalize_and_report (weights : list F) : M world unit :=
  let sum_weights := py_sum weights in
  set_normalizedWeights (NdArray (np_divide weights sum_weights)) ;;
  rows <- csv_rows ;;
  write_csv "CalibrationResults.csv" (csv_header :: rows).

Definition sample_posterior (n_samples : nat) : M world unit :=
  weights <- raw_weights n_samples ;;
  normalize_and_report weights.

(** [list ** 2] is a TypeError; on the array the squares are summed. *)
Definition get_effective_sample_size (c : t F) : Result F :=
  match normalizedWeights c with
  | PyList _ => Raise TypeError
  | NdArray a => Ok (fdiv fone (np_sum (np_square a)))
  end.

End Methods.
End Calibration.

(** ** class CalibratedModel *)

(** Indices of the columns of the calibration results file. *)
Inductive CalibrationColIndex : Type := ID | W | MORT_PROB.

Definition value (c : CalibrationColIndex) : Z :=
  match c with ID => 0 | W => 1 | MORT_PROB => 2 end.

Module CalibratedModel.

(** The [MultiCohort] held by the model.  Its [mortality_probs] is the very
    list [resampledMortalityProb] of the model (the constructor receives the
    object, not a copy), so it is read from there and not stored twice. *)
Record MultiCohort (F : Type) : Type := {
  ids : list Z;
  pop_sizes : list nat;
  meanSurvivalTimes : option (list F)
}.

Record t (F : Type) : Type := {
  cohortIDs : list Z;
  weights : list F;
  mortalityProbs : list F;
  resampledMortalityProb : list F;
  multiCohorts : option (MultiCohort F)
}.

Section Methods.
Context {F G : Type} `{Number F}.
Variable E : Env F G.

Local Abbreviation world := (World F G (t F)).

(** [CalibratedModel(csv_file_name, drug_effectiveness_ratio=1)] *)
Definition init (csv_file_name : string) (drug_effectiveness_ratio : option F)
  : Result (t F) :=
  let ratio := match drug_effectiveness_ratio with
               | Some r => r
               | None => fone
               end in
  and_then (read_csv_cols E csv_file_name 3 true true) (fun cols =>
  and_then (getitem cols (value ID)) (fun c_id =>
  and_then (getitem cols (value W)) (fun c_w =>
  and_then (getitem cols (value MORT_PROB)) (fun c_p =>
  Ok {| cohortIDs := map to_int c_id;
        weights := c_w;
        mortalityProbs := map (fun p => fmul p ratio) c_p;
        resampledMortalityProb := [];
        multiCohorts := None |})))).

Definition append_resampled (p : F) : M world unit :=
  update (fun m => {| cohortIDs := cohortIDs m;
                      weights := weights m;
                      mortalityProbs := mortalityProbs m;
                      resampledMortalityProb := resampledMortalityProb m ++ [p];
                      multiCohorts := multiCohorts m |}).

Definition set_multiCohorts (mc : MultiCohort F) : M world unit :=
  update (fun m => {| cohortIDs := cohortIDs m;
                      weights := weights m;
                      mortalityProbs := mortalityProbs m;
                      resampledMortalityProb := resampledMortalityProb m;
                      multiCohorts := Some mc |}).

(** Lines 133-137: the loop over the sampled row indices. *)
Definition resample (sampled_row_indices : list nat) : M world (list Z) :=
  for_each sampled_row_indices (fun i =>
    id <- reads (fun w => getitem (cohortIDs (self w)) (Z.of_nat i)) ;;
    p <- reads (fun w => getitem (mortalityProbs (self w)) (Z.of_nat i)) ;;
    append_resampled p ;;
    ret id).

Definition simulate (num_of_simulated_cohorts cohort_size time_steps : nat)
  (cohort_ids : option (list Z)) : M world unit :=
  ws <- gets (fun w => weights (self w)) ;;
  sampled_row_indices <-
    with_rng (fun g =>
      np_random_choice E g (length ws) num_of_simulated_cohorts ws) ;;
  resampled_ids <- resample sampled_row_indices ;;
  let mc := {| ids := match cohort_ids with
                      | None => resampled_ids
                      | Some given => given
                      end;
               pop_sizes := repeat cohort_size num_of_simulated_cohorts;
               meanSurvivalTimes := None |} in
  probs <- gets (fun w => resampledMortalityProb (self w)) ;;
  lift (MultiCohort_init E (ids mc) (pop_sizes mc) probs) ;;
  set_multiCohorts mc ;;
  times <- with_rng (fun g =>
    MultiCohort_simulate E g (ids mc) (pop_sizes mc) probs time_steps) ;;
  set_multiCohorts
    {| ids := ids mc; pop_sizes := pop_sizes mc;
       meanSurvivalTimes := Some times |}.

(** [(estimate, credible_interval)] of the resampled mortality
    probabilities. *)
Definition get_mortality_estimate_credible_interval (alpha : F) (m : t F)
  : Result (F * (F * F)) :=
  and_then (SummaryStat_get_mean E (resampledMortalityProb m)) (fun estimate =>
  and_then (SummaryStat_get_PI E (resampledMortalityProb m) alpha)
    (fun credible_interval => Ok (estimate, credible_interval))).

End Methods.
End CalibratedModel.

(** ** The normal density in exact arithmetic *)

(** [scipy.stats.norm.pdf(x, loc, scale)] is [_norm_pdf(y) / scale] at
    [y = (x - loc) / scale], with [_norm_pdf(y) = exp(-y**2/2) / sqrt(2*pi)]. *)
Definition gauss_pdf (x loc scale : R) : R :=
  (exp (- (((x - loc) / scale) * ((x - loc) / scale)) / 2)
   / sqrt (2 * PI) / scale)%R.

(** ** Environments to run the code in *)

(** The stub simulator of the end-to-end scenario: a cohort of mortality
    probability [p] survives [20 * (1 - p)] on average. *)
Definition stub_outcomes {F} `{Number F} (twenty : F) (probs : list F)
  : list F :=
  map (fun p => fmul twenty (fsub fone p)) probs.

Module FloatEnv.
Local Open Scope float_scope.

(** The unit draws the generator hands out, in order. *)
Definition stream : list float := [0.5; 0.25; 0.75; 0.125; 0.625].

Definition sample (g : nat) : float * nat := (nth g stream 0.375, S g).

(** [norm.pdf] where it needs no exponential: at the mode the density is
    [1 / sqrt(2*pi) / scale]; from 39 standard deviations on, [exp(-y*y/2)]
    is below the smallest binary64 number and the density is [0.0].  In
    between no value is tabulated. *)
Definition pdf (x loc scale : float) : float :=
  let y := (x - loc) / scale in
  if y =? 0 then 1 / 2.5066282746310002 / scale
  else if 39 <=? abs y then 0
  else nan.

(** [np.random.choice] on a generator that walks through the rows; like
    numpy it refuses an empty population, a [p] of another length, a negative
    entry and a [p] whose sum is not 1 within [sqrt(eps)]. *)
Definition choice (g n size : nat) (p : list float)
  : nat * Result (list nat) :=
  if (n =? 0)%nat || negb (length p =? n)%nat
     || existsb (fun x => negb (0 <=? x)) p
     || negb (abs (py_sum p - 1) <=? 0x1p-26)
  then (g, Raise ValueError)
  else ((g + size)%nat, Ok (map (fun j => ((g + j) mod n)%nat) (seq 0 size))).

(** Two result files: a table of two rows with equal weights, and one whose
    weights sum to one half. *)
Definition read (file_name : string) (n_cols : nat) (skip convert : bool)
  : Result (list (list float)) :=
  if String.eqb file_name "CalibrationResults.csv"
  then Ok [[0; 1]; [0.5; 0.5]; [0.2; 0.8]]
  else if String.eqb file_name "HalfWeights.csv"
  then Ok [[0; 1]; [0.25; 0.25]; [0.2; 0.8]]
  else Raise (External "FileNotFoundError").

Definition mean (data : list float) : Result float :=
  Ok (py_sum data / py_sum (map (fun _ => 1) data)).

(** The percentile interval is stood in for by the range of the data. *)
Definition interval (data : list float) (alpha : float)
  : Result (float * float) :=
  match data with
  | [] => Raise ValueError
  | x :: rest =>
      Ok (fold_left (fun a b => if b <? a then b else a) rest x,
          fold_left (fun a b => if a <? b then b else a) rest x)
  end.

Definition env : Env float nat :=
  {| np_random_seed := fun _ => O;
     np_random_sample := sample;
     np_random_choice := choice;
     norm_pdf := pdf;
     MultiCohort_init := fun _ _ _ => Ok tt;
     MultiCohort_simulate :=
       fun g _ _ probs _ => (g, Ok (stub_outcomes 20 probs));
     read_csv_cols := read;
     SummaryStat_get_mean := mean;
     SummaryStat_get_PI := interval |}.

(** Prior [0, 1] with two draws, observed mean 100 with standard deviation 1:
    every simulated mean (at most 20) is implausible. *)
Definition implausible : Settings float :=
  {| PRIOR_L := 0; PRIOR_U := 1; PRIOR_N := 2;
     SIM_POP_SIZE := 1000; TIME_STEPS := 100;
     OBS_MEAN := 100; OBS_STDEV := 1 |}.

(** One draw, observed mean 10 with standard deviation 2: the draw 0.5 is
    simulated at 10, the mode of the likelihood. *)
Definition single_candidate : Settings float :=
  {| PRIOR_L := 0; PRIOR_U := 1; PRIOR_N := 1;
     SIM_POP_SIZE := 1000; TIME_STEPS := 100;
     OBS_MEAN := 10; OBS_STDEV := 2 |}.

Definition start {Obj} (o : Obj) : World float nat Obj :=
  {| self := o; rng := O; files := [] |}.

(** The model loaded from [CalibrationResults.csv] with the default ratio,
    and the same model after an earlier resampling of row 1. *)
Definition loaded : CalibratedModel.t float :=
  {| CalibratedModel.cohortIDs := [0; 1]%Z;
     CalibratedModel.weights := [0.5; 0.5];
     CalibratedModel.mortalityProbs := [0.2; 0.8];
     CalibratedModel.resampledMortalityProb := [];
     CalibratedModel.multiCohorts := None |}.

Definition resampled_once : CalibratedModel.t float :=
  {| CalibratedModel.cohortIDs := [0; 1]%Z;
     CalibratedModel.weights := [0.5; 0.5];
     CalibratedModel.mortalityProbs := [0.2; 0.8];
     CalibratedModel.resampledMortalityProb := [0.8];
     CalibratedModel.multiCohorts := None |}.

End FloatEnv.

Module RealEnv.
Local Open Scope R_scope.

Definition sample (g : nat) : R * nat := (/ 2 ^ S g, S g).

Definition choice (g n size : nat) (p : list R) : nat * Result (list nat) :=
  match n with
  | O => (g, Raise ValueError)
  | S _ =>
      ((g + size)%nat, Ok (map (fun j => ((g + j) mod n)%nat) (seq 0 size)))
  end.

Definition env : Env R nat :=
  {| np_random_seed := fun _ => O;
     np_random_sample := sample;
     np_random_choice := choice;
     norm_pdf := gauss_pdf;
     MultiCohort_init := fun _ _ _ => Ok tt;
     MultiCohort_simulate :=
       fun g _ _ probs _ => (g, Ok (stub_outcomes 20 probs));
     read_csv_cols := fun _ _ _ _ => Raise (External "FileNotFoundError");
     SummaryStat_get_mean := fun _ => Raise (External "not modelled");
     SummaryStat_get_PI := fun _ _ => Raise (External "not modelled") |}.

(** The end-to-end scenario: prior [0, 1], five prior draws, observed mean 10
    with standard deviation 2. *)
Definition scenario : Settings R :=
  {| PRIOR_L := 0; PRIOR_U := 1; PRIOR_N := 5;
     SIM_POP_SIZE := 1000; TIME_STEPS := 100;
     OBS_MEAN := 10; OBS_STDEV := 2 |}.

Definition start {Obj} (o : Obj) : World R nat Obj :=
  {| self := o; rng := O; files := [] |}.

End RealEnv.

(** ** Predicates used in the statements *)

(** [keeps P c]: [P] survives [c], whether [c] returns or raises. *)
Definition keeps {W A} (P : W -> Prop) (c : M W A) : Prop :=
  forall w, P w -> P (fst (c w)).

(** A property of the object only. *)
Definition on_self {F G Obj} (Q : Obj -> Prop) (w : World F G Obj) : Prop :=
  Q (self w).





(** The mortality probabilities of the rows [idx] of a loaded model. *)
Definition picked {F} `{Number F} (m : CalibratedModel.t F) (idx : list nat)
  : list F :=
  map (fun i => nth i (CalibratedModel.mortalityProbs m) fzero) idx.

(** A world whose model has [xs] as accumulated list and is otherwise that
    of [w]. *)
Definition with_resampled {F G} (w : World F G (CalibratedModel.t F))
  (xs : list F) : World F G (CalibratedModel.t F) :=
  {| self := {| CalibratedModel.cohortIDs := CalibratedModel.cohortIDs (self w);
                CalibratedModel.weights := CalibratedModel.weights (self w);
                CalibratedModel.mortalityProbs :=
                  CalibratedModel.mortalityProbs (self w);
                CalibratedModel.resampledMortalityProb := xs;
                CalibratedModel.multiCohorts :=
                  CalibratedModel.multiCohorts (self w) |};
     rng := rng w;
     files := files w |}.




(** ** What a calibration run asks of its collaborators *)

Section Requests.
Context {F G : Type} `{Number F}.
Variable E : Env F G.
Variable Sets : Settings F.

(** Lines 31-41: the mortality probabilities drawn after the seed is set. *)
Definition prior_draws : list F :=
  map (fun u => fadd (PRIOR_L Sets)
                  (fmul (fsub (PRIOR_U Sets) (PRIOR_L Sets)) u))
      (fst (draws E (PRIOR_N Sets) (np_random_seed E 1))).

(** Lines 43-51: what the simulator answers when it is built on the ids of
    [range(n_samples)], the prior draws and [PRIOR_N] population sizes and
    then simulated. *)
Definition simulated_means (n_samples : nat) : Result (list F) :=
  let pop_sizes := repeat (SIM_POP_SIZE Sets) (PRIOR_N Sets) in
  and_then
    (MultiCohort_init E (py_range n_samples) pop_sizes prior_draws)
    (fun _ =>
       snd (MultiCohort_simulate E
              (snd (draws E (PRIOR_N Sets) (np_random_seed E 1)))
              (py_range n_samples) pop_sizes prior_draws (TIME_STEPS Sets))).

(** Lines 31-51: the means a run gets to weigh. [np.random.uniform] raises
    an [OverflowError] when the width of the prior range is not finite, before
    any simulator is built. *)
Definition means_of_run (n_samples : nat) : Result (list F) :=
  if fis_finite (fsub (PRIOR_U Sets) (PRIOR_L Sets))
  then simulated_means n_samples
  else Raise OverflowError.

(** Lines 53-69: the raw weights of the ids [0 .. n_samples - 1] when every
    id has a mean. *)
Definition weights_of_means (n_samples : nat) (means : list F) : list F :=
  map (fun i => norm_pdf E (OBS_MEAN Sets) (nth i means fzero)
                  (OBS_STDEV Sets))
      (seq 0 n_samples).

(** Line 80: the row of the report for the position [i] of an object. *)
Definition report_row (c : Calibration.t F) (i : nat) : list (cell F) :=
  [CInt (Z.of_nat i);
   CNum (nth i (items (Calibration.normalizedWeights c)) fzero);
   CNum (nth i (Calibration.mortalitySamples c) fzero)].

End Requests.

(** Every draw of the generator lies in the unit interval. *)
Definition unit_draws {G} (E : Env R G) : Prop :=
  forall g, (0 <= fst (np_random_sample E g) <= 1)%R.

(** ** Callers of [CalibratedModel.simulate] *)

(** What numpy guarantees of [np.random.choice] when it returns: [size]
    indices, each below the size of the population. *)
Definition choice_contract {F G} (E : Env F G) : Prop :=
  forall g n size p g' idx,
    np_random_choice E g n size p = (g', Ok idx) ->
    length idx = size /\ Forall (fun i => i < n) idx.

(** A model whose three columns have one length. *)
Definition well_formed {F} (m : CalibratedModel.t F) : Prop :=
  length (CalibratedModel.cohortIDs m) = length (CalibratedModel.weights m) /\
  length (CalibratedModel.mortalityProbs m)
  = length (CalibratedModel.weights m).

(** The arguments of one call of [simulate]. *)
Record call : Type := {
  num_of_simulated_cohorts : nat;
  cohort_size : nat;
  time_steps : nat;
  cohort_ids : option (list Z)
}.

(** Calls of [simulate] on one model, one after the other; the first
    exception ends the sequence. *)
Definition simulate_all {F G} `{Number F} (E : Env F G) (calls : list call)
  : M (World F G (CalibratedModel.t F)) (list unit) :=
  for_each calls (fun c =>
    CalibratedModel.simulate E (num_of_simulated_cohorts c) (cohort_size c)
      (time_steps c) (cohort_ids c)).

(** The binary64 environment with a simulator that insists on one population
    size and one mortality probability per id. *)
Definition strict_env : Env float nat :=
  {| np_random_seed := np_random_seed FloatEnv.env;
     np_random_sample := np_random_sample FloatEnv.env;
     np_random_choice := np_random_choice FloatEnv.env;
     norm_pdf := norm_pdf FloatEnv.env;
     MultiCohort_init :=
       fun ids pop_sizes mortality_probs =>
         if ((length pop_sizes =? length ids)
             && (length mortality_probs =? length ids))%nat
         then Ok tt
         else Raise ValueError;
     MultiCohort_simulate := MultiCohort_simulate FloatEnv.env;
     read_csv_cols := read_csv_cols FloatEnv.env;
     SummaryStat_get_mean := SummaryStat_get_mean FloatEnv.env;
     SummaryStat_get_PI := SummaryStat_get_PI FloatEnv.env |}.

(** A prior whose bounds are binary64 numbers but whose width is not: the
    difference [PRIOR_U - PRIOR_L] overflows to infinity. *)
Definition too_wide : Settings float :=
  {| PRIOR_L := (-0x1.fffffffffffffp+1023)%float;
     PRIOR_U := 0x1.fffffffffffffp+1023%float;
     PRIOR_N := 2;
     SIM_POP_SIZE := 1000; TIME_STEPS := 100;
     OBS_MEAN := 10%float; OBS_STDEV := 2%float |}.

(** An object that holds the ids, the draws and the weights of an earlier
    run. *)
Definition earlier_run : Calibration.t float :=
  {| Calibration.cohortIDs := [7; 8; 9]%Z;
     Calibration.mortalitySamples := [0.9; 0.1; 0.3]%float;
     Calibration.normalizedWeights := NdArray [0.5; 0.25; 0.25]%float;
     Calibration.mortalityResamples := [] |}.

(** The model loaded from [HalfWeights.csv]. *)
Definition half_loaded : CalibratedModel.t float :=
  {| CalibratedModel.cohortIDs := [0; 1]%Z;
     CalibratedModel.weights := [0.25; 0.25]%float;
     CalibratedModel.mortalityProbs := [0.2; 0.8]%float;
     CalibratedModel.resampledMortalityProb := [];
     CalibratedModel.multiCohorts := None |}.

(** The exact environment with a reader that returns the columns [cols]. *)
Definition table_env (cols : list (list R)) : Env R nat :=
  {| np_random_seed := np_random_seed RealEnv.env;
     np_random_sample := np_random_sample RealEnv.env;
     np_random_choice := np_random_choice RealEnv.env;
     norm_pdf := norm_pdf RealEnv.env;
     MultiCohort_init := MultiCohort_init RealEnv.env;
     MultiCohort_simulate := MultiCohort_simulate RealEnv.env;
     read_csv_cols := fun _ _ _ _ => Ok cols;
     SummaryStat_get_mean := SummaryStat_get_mean RealEnv.env;
     SummaryStat_get_PI := SummaryStat_get_PI RealEnv.env |}.
(** * Properties *)

(** ** What a computation leaves alone *)

Section Frame.
Context {W : Type}.
Implicit Types P : W -> Prop.

Lemma keeps_ret {A} P (a : A) : keeps P (ret a).
Proof. intros w Hw; exact Hw. Qed.

Lemma keeps_raise {A} P e : keeps P (@raise W A e).
Proof. intros w Hw; exact Hw. Qed.

Lemma keeps_lift {A} P (r : Result A) : keeps P (lift r).
Proof. intros w Hw; exact Hw. Qed.

Lemma keeps_reads {A} P (f : W -> Result A) : keeps P (reads f).
Proof. intros w Hw; exact Hw. Qed.

Lemma keeps_gets {A} P (f : W -> A) : keeps P (gets f).
Proof. intros w Hw; exact Hw. Qed.

Lemma keeps_bind {A B} P (c : M W A) (k : A -> M W B) :
  keeps P c -> (forall a, keeps P (k a)) -> keeps P (bind c k).
Proof.
  intros Hc Hk w Hw. unfold bind.
  specialize (Hc w Hw). destruct (c w) as [w1 [a | e]]; simpl in *.
  - apply Hk, Hc.
  - exact Hc.
Qed.

Lemma keeps_for_each {A B} P (l : list A) (body : A -> M W B) :
  (forall x, keeps P (body x)) -> keeps P (for_each l body).
Proof.
  intros Hb. induction l as [| x rest IH]; simpl.
  - apply keeps_ret.
  - apply keeps_bind; [apply Hb | intros y].
    apply keeps_bind; [exact IH | intros ys; apply keeps_ret].
Qed.

End Frame.

Section FrameWorld.
Context {F G Obj : Type} `{Number F}.
Variable E : Env F G.
Variable Q : Obj -> Prop.
Local Abbreviation on_self := (on_self (F := F) (G := G) Q).

Lemma keeps_update (f : Obj -> Obj) :
  (forall o, Q o -> Q (f o)) -> keeps on_self (update f).
Proof. intros Hf w Hw. apply Hf, Hw. Qed.

Lemma keeps_with_rng {A} (f : G -> G * Result A) :
  keeps on_self (with_rng (Obj := Obj) (F := F) f).
Proof.
  intros w Hw. unfold with_rng. destruct (f (rng w)); exact Hw.
Qed.

Lemma keeps_seed s : keeps on_self (seed (Obj := Obj) E s).
Proof. apply keeps_with_rng. Qed.

Lemma keeps_uniform low high size :
  keeps on_self (np_random_uniform (Obj := Obj) E low high size).
Proof.
  unfold np_random_uniform. cbv zeta.
  destruct (fis_finite _); [apply keeps_with_rng | apply keeps_raise].
Qed.

Lemma keeps_write_csv name rows :
  keeps on_self (write_csv (G := G) (Obj := Obj) name rows).
Proof. intros w Hw; exact Hw. Qed.

End FrameWorld.

Create HintDb frame.
#[local] Hint Resolve keeps_ret keeps_raise keeps_lift keeps_reads keeps_gets
  keeps_with_rng keeps_seed keeps_uniform keeps_write_csv : frame.

(** Walks through a computation, leaving the updates of the object. *)
Ltac frame :=
  repeat first
    [ apply keeps_bind; [| intro]
    | apply keeps_for_each; intro
    | solve [auto with frame]
    | apply keeps_update; intros ? ? ].

(** ** CalibratedModel.simulate: the loaded table *)

Section SimulateFrame.
Context {F G : Type} `{Number F}.
Variable E : Env F G.
Import CalibratedModel.

Lemma simulate_frame
  (num_of_simulated_cohorts cohort_size time_steps : nat)
  (cohort_ids : option (list Z)) (w : World F G (t F)) :
  let w' := fst (simulate E num_of_simulated_cohorts cohort_size time_steps
                   cohort_ids w) in
  cohortIDs (self w') = cohortIDs (self w) /\
  weights (self w') = weights (self w) /\
  mortalityProbs (self w') = mortalityProbs (self w).
Proof.
  set (Q := fun m : t F =>
              cohortIDs m = cohortIDs (self w) /\
              weights m = weights (self w) /\
              mortalityProbs m = mortalityProbs (self w)).
  assert (Hk : keeps (on_self Q)
                 (simulate E num_of_simulated_cohorts cohort_size time_steps
                    cohort_ids)).
  { unfold simulate, resample, append_resampled, set_multiCohorts.
    frame; assumption. }
  apply (Hk w). repeat split.
Qed.

(** C10. Whatever [simulate] is called with and however it ends, the three
    attributes loaded by the constructor are what they were. *)
Theorem simulate_keeps_loaded_table
  (num_of_simulated_cohorts cohort_size time_steps : nat)
  (cohort_ids : option (list Z)) (w : World F G (t F)) :
  let w' := fst (simulate E num_of_simulated_cohorts cohort_size time_steps
                   cohort_ids w) in
  cohortIDs (self w') = cohortIDs (self w) /\
  weights (self w') = weights (self w) /\
  mortalityProbs (self w') = mortalityProbs (self w).
Proof. apply simulate_frame. Qed.

End SimulateFrame.

(** ** Calibration.sample_posterior: ids and prior draws *)

Section SamplePosterior.
Context {F G : Type} `{Number F}.
Variable E : Env F G.
Variable Sets : Settings F.
Import Calibration.

Lemma bind_post {W A B} (P : W -> Prop) (c : M W A) (k : A -> M W B) w :
  P (fst (c w)) -> (forall a, keeps P (k a)) -> P (fst (bind c k w)).
Proof.
  intros Hc Hk. unfold bind.
  destruct (c w) as [w1 [a | e]]; simpl in *; [apply Hk, Hc | exact Hc].
Qed.

Lemma draws_length (n : nat) (g : G) : length (fst (draws E n g)) = n.
Proof.
  revert g. induction n as [| k IH]; intros g; simpl.
  - reflexivity.
  - destruct (np_random_sample E g) as [u g1].
    specialize (IH g1). destruct (draws E k g1) as [us g2].
    simpl in *. now rewrite IH.
Qed.

(** When the prior range is finite, the simulator is started with the
    generator seeded, the ids of [range(n_samples)] and [PRIOR_N] prior draws
    in place. *)
Lemma raw_weights_from_drawn (n_samples : nat) (w : World F G (t F)) :
  fis_finite (fsub (PRIOR_U Sets) (PRIOR_L Sets)) = true ->
  let d := draws E (PRIOR_N Sets) (np_random_seed E 1) in
  raw_weights E Sets n_samples w =
  (meanSurvivalTimes <- simulate_multi_cohort E Sets ;;
   likelihood_weights E Sets meanSurvivalTimes)%py
    {| self := {| cohortIDs := py_range n_samples;
                  mortalitySamples :=
                    map (fun u =>
                           fadd (PRIOR_L Sets)
                             (fmul (fsub (PRIOR_U Sets) (PRIOR_L Sets)) u))
                        (fst d);
                  normalizedWeights := normalizedWeights (self w);
                  mortalityResamples := mortalityResamples (self w) |};
       rng := snd d;
       files := files w |}.
Proof.
  intros Hfinite.
  unfold raw_weights, seed, np_random_uniform, with_rng,
    set_cohortIDs, set_mortalitySamples, update, modify.
  cbv zeta. rewrite Hfinite.
  unfold bind at 1 2 3 4. simpl.
  destruct (draws E (PRIOR_N Sets) (np_random_seed E 1)) as [us g'].
  reflexivity.
Qed.

(** When the prior range is not finite, [np.random.uniform] raises: the
    generator is seeded and the ids are assigned, nothing else is. *)
Lemma raw_weights_overflow (n_samples : nat) (w : World F G (t F)) :
  fis_finite (fsub (PRIOR_U Sets) (PRIOR_L Sets)) = false ->
  raw_weights E Sets n_samples w =
  ({| self := {| cohortIDs := py_range n_samples;
                 mortalitySamples := mortalitySamples (self w);
                 normalizedWeights := normalizedWeights (self w);
                 mortalityResamples := mortalityResamples (self w) |};
      rng := np_random_seed E 1;
      files := files w |},
   Raise OverflowError).
Proof.
  intros Hfinite.
  unfold raw_weights, seed, np_random_uniform, with_rng,
    set_cohortIDs, update, modify.
  cbv zeta. rewrite Hfinite. reflexivity.
Qed.

(** With a finite prior range, however the call ends, the ids are those of
    [range(n_samples)] and the number of drawn mortality probabilities is
    [PRIOR_N]. *)
Lemma sample_posterior_sizes (n_samples : nat) (w : World F G (t F)) :
  fis_finite (fsub (PRIOR_U Sets) (PRIOR_L Sets)) = true ->
  let c := self (fst (sample_posterior E Sets n_samples w)) in
  cohortIDs c = py_range n_samples /\
  length (mortalitySamples c) = PRIOR_N Sets.
Proof.
  intros Hfinite.
  set (Q := fun c : t F =>
              cohortIDs c = py_range n_samples /\
              length (mortalitySamples c) = PRIOR_N Sets).
  change (on_self (F := F) (G := G) Q
            (fst (sample_posterior E Sets n_samples w))).
  unfold sample_posterior. apply bind_post.
  - rewrite (raw_weights_from_drawn n_samples w Hfinite).
    assert (Hk : keeps (on_self (F := F) (G := G) Q)
              (meanSurvivalTimes <- simulate_multi_cohort E Sets ;;
               likelihood_weights E Sets meanSurvivalTimes)%py).
    { unfold simulate_multi_cohort, likelihood_weights. frame. }
    apply Hk. split; simpl.
    + reflexivity.
    + rewrite length_map. apply draws_length.
  - intros ws. unfold normalize_and_report, csv_rows, set_normalizedWeights.
    frame; assumption.
Qed.

End SamplePosterior.

(** C1. With five prior draws configured, [sample_posterior(3)] assigns the
    ids 0, 1, 2 and draws five mortality probabilities, not three; the rows
    of the report then ask for a fourth id and the call ends in an
    [IndexError]. *)
Theorem sample_posterior_draws_PRIOR_N_values :
  let run := Calibration.sample_posterior RealEnv.env RealEnv.scenario 3
               (RealEnv.start Calibration.init) in
  Calibration.cohortIDs (self (fst run)) = [0; 1; 2]%Z /\
  length (Calibration.mortalitySamples (self (fst run))) = 5 /\
  length (Calibration.mortalitySamples (self (fst run)))
    <> length (Calibration.cohortIDs (self (fst run))) /\
  snd run = Raise IndexError.
Proof.
  intros run.
  assert (Hfinite : fis_finite (fsub (PRIOR_U RealEnv.scenario)
                                     (PRIOR_L RealEnv.scenario)) = true)
    by reflexivity.
  destruct (sample_posterior_sizes RealEnv.env RealEnv.scenario 3
              (RealEnv.start Calibration.init) Hfinite) as [Hids Hlen].
  fold run in Hids, Hlen. rewrite Hids, Hlen.
  split; [reflexivity |]. split; [reflexivity |].
  split; [simpl; lia |].
  subst run. reflexivity.
Qed.

(** ** Sums in exact arithmetic *)

Section RealSums.
Local Open Scope R_scope.

Lemma fold_left_Rplus (l : list R) (a : R) :
  fold_left Rplus l a = a + fold_left Rplus l 0.
Proof.
  revert a. induction l as [| x l IH]; intros a; simpl.
  - ring.
  - rewrite (IH (a + x)), (IH (0 + x)). ring.
Qed.

Lemma py_sum_nil : py_sum (@nil R) = 0.
Proof. reflexivity. Qed.

Lemma py_sum_cons (x : R) (l : list R) : py_sum (x :: l) = x + py_sum l.
Proof.
  unfold py_sum. simpl. rewrite fold_left_Rplus. ring.
Qed.

Lemma py_sum_nonneg (l : list R) :
  Forall (fun x => 0 <= x) l -> 0 <= py_sum l.
Proof.
  induction 1 as [| x l Hx _ IH].
  - rewrite py_sum_nil. lra.
  - rewrite py_sum_cons. lra.
Qed.




Lemma py_sum_square_cons (x : R) (l : list R) :
  py_sum (np_square (x :: l)) = x * x + py_sum (np_square l).
Proof.
  change (np_square (x :: l)) with (x * x :: np_square l).
  apply py_sum_cons.
Qed.

Lemma py_sum_square_nonneg (l : list R) : 0 <= py_sum (np_square l).
Proof.
  induction l as [| x l IH].
  - simpl. rewrite py_sum_nil. lra.
  - rewrite py_sum_square_cons. nra.
Qed.





End RealSums.

(** ** Calibration.get_effective_sample_size *)

Section EffectiveSampleSize.
Local Open Scope R_scope.











End EffectiveSampleSize.


(** ** Calibration.sample_posterior: the likelihood weights *)

Section LikelihoodLoop.
Context {F G Obj : Type}.

(** A loop whose body only looks a value up and computes from it. *)
Lemma for_each_lookup {A B C} (g : A -> Result B) (h : A -> B -> C)
  (l : list A) (w w' : World F G Obj) (ys : list C) :
  for_each l (fun x => v <- lift (g x) ;; ret (h x v))%py w = (w', Ok ys) ->
  w' = w /\ Forall2 (fun x y => exists v, g x = Ok v /\ y = h x v) l ys.
Proof.
  revert ys. induction l as [| x l IH]; intros ys; simpl.
  - unfold ret. intros [= <- <-]. split; [reflexivity | constructor].
  - unfold bind at 1 2, lift, ret. destruct (g x) as [v | e] eqn:Hg.
    2: discriminate.
    unfold bind at 1.
    destruct (for_each l _ w) as [w1 [zs | e]] eqn:Hrest.
    2: discriminate.
    intros [= <- <-]. destruct (IH zs eq_refl) as [-> Hall].
    split; [reflexivity |]. constructor; [exists v; auto | exact Hall].
Qed.

End LikelihoodLoop.

Section Likelihood.
Context {F G : Type} `{Number F}.
Variable E : Env F G.
Variable Sets : Settings F.
Import Calibration.

(** Lines 53-69 leave the world alone and give, id by id, the density of
    the observed mean around the simulated mean of that id. *)
Lemma likelihood_weights_spec (means : list F) (w w' : World F G (t F))
  (ws : list F) :
  likelihood_weights E Sets means w = (w', Ok ws) ->
  w' = w /\
  Forall2 (fun id wt =>
             exists mean, getitem means id = Ok mean /\
                          wt = norm_pdf E (OBS_MEAN Sets) mean (OBS_STDEV Sets))
          (cohortIDs (self w)) ws.
Proof.
  unfold likelihood_weights, bind at 1, gets. intros Hrun.
  apply (for_each_lookup (getitem means)
           (fun _ mean => norm_pdf E (OBS_MEAN Sets) mean (OBS_STDEV Sets))).
  exact Hrun.
Qed.

End Likelihood.

Section GaussianLikelihood.
Local Open Scope R_scope.
Import Calibration.

Lemma exp_monotone (a b : R) : a <= b -> exp a <= exp b.
Proof.
  intros [Hlt | ->]; [left; now apply exp_increasing | right; reflexivity].
Qed.

(** The density is the larger, the closer the location is to the point. *)
Lemma gauss_pdf_closer (x m1 m2 s : R) :
  0 < s -> Rabs (m1 - x) <= Rabs (m2 - x) ->
  gauss_pdf x m2 s <= gauss_pdf x m1 s.
Proof.
  intros Hs Hcloser. unfold gauss_pdf.
  assert (Hc : 0 < sqrt (2 * PI)).
  { apply sqrt_lt_R0. pose proof PI_RGT_0. lra. }
  assert (Hsq : (x - m1) * (x - m1) <= (x - m2) * (x - m2)).
  { rewrite <- (Rabs_Ropp (m1 - x)), <- (Rabs_Ropp (m2 - x)) in Hcloser.
    replace (- (m1 - x)) with (x - m1) in Hcloser by ring.
    replace (- (m2 - x)) with (x - m2) in Hcloser by ring.
    apply Rsqr_le_abs_1 in Hcloser. exact Hcloser. }
  assert (Hy : (x - m1) / s * ((x - m1) / s) <= (x - m2) / s * ((x - m2) / s)).
  { replace ((x - m1) / s * ((x - m1) / s))
      with ((x - m1) * (x - m1) * (/ s * / s)) by (field; lra).
    replace ((x - m2) / s * ((x - m2) / s))
      with ((x - m2) * (x - m2) * (/ s * / s)) by (field; lra).
    apply Rmult_le_compat_r; [| exact Hsq].
    pose proof (Rinv_0_lt_compat s Hs). nra. }
  assert (He : exp (- ((x - m2) / s * ((x - m2) / s)) / 2)
               <= exp (- ((x - m1) / s * ((x - m1) / s)) / 2)).
  { apply exp_monotone. lra. }
  unfold Rdiv at 1 2 8 9.
  apply Rmult_le_compat_r; [left; now apply Rinv_0_lt_compat |].
  apply Rmult_le_compat_r; [left; now apply Rinv_0_lt_compat |].
  exact He.
Qed.

(** C5. Each raw weight is the normal density at the observed mean, located
    at the simulated mean of its candidate and scaled by the observed
    standard deviation; so of two candidates the one whose simulated mean is
    at least as close to the observed mean has at least the weight of the
    other. *)
Theorem likelihood_weights_rank_by_distance {G : Type}
  (E : Env R G) (Sets : Settings R) (means : list R)
  (w w' : World R G (t R)) (ws : list R) :
  norm_pdf E = gauss_pdf ->
  0 < OBS_STDEV Sets ->
  likelihood_weights E Sets means w = (w', Ok ws) ->
  Forall2 (fun id wt =>
             exists mean, getitem means id = Ok mean /\
                          wt = gauss_pdf (OBS_MEAN Sets) mean (OBS_STDEV Sets))
          (cohortIDs (self w)) ws /\
  forall i j id_i id_j mean_i mean_j w_i w_j,
    nth_error (cohortIDs (self w)) i = Some id_i ->
    nth_error (cohortIDs (self w)) j = Some id_j ->
    getitem means id_i = Ok mean_i ->
    getitem means id_j = Ok mean_j ->
    nth_error ws i = Some w_i ->
    nth_error ws j = Some w_j ->
    Rabs (mean_i - OBS_MEAN Sets) <= Rabs (mean_j - OBS_MEAN Sets) ->
    w_j <= w_i.
Proof.
  intros Hpdf Hsd Hrun.
  destruct (likelihood_weights_spec E Sets means w Hrun) as [_ Hall].
  rewrite Hpdf in Hall. split; [exact Hall |].
  assert (Hat : forall k id mean wt,
             nth_error (cohortIDs (self w)) k = Some id ->
             getitem means id = Ok mean ->
             nth_error ws k = Some wt ->
             wt = gauss_pdf (OBS_MEAN Sets) mean (OBS_STDEV Sets)).
  { clear - Hall. induction Hall as [| id0 wt0 ids wts [m [Hm Hw]] _ IH];
      intros k id mean wt Hid Hmean Hwt.
    - destruct k; discriminate.
    - destruct k as [| k]; simpl in Hid, Hwt.
      + injection Hid as <-. injection Hwt as <-. congruence.
      + eapply IH; eassumption. }
  intros i j id_i id_j mean_i mean_j w_i w_j Hi Hj Hmi Hmj Hwi Hwj Hcloser.
  rewrite (Hat i id_i mean_i w_i Hi Hmi Hwi), (Hat j id_j mean_j w_j Hj Hmj Hwj).
  now apply gauss_pdf_closer.
Qed.

(** In the end-to-end scenario (observed mean 10, standard deviation 2) a
    candidate simulated at 10 outweighs one simulated at 15. *)
Lemma likelihood_weights_rank_by_distance_witness :
  gauss_pdf 10 15 2 <= gauss_pdf 10 10 2.
Proof.
  pose (w := {| self := {| cohortIDs := [0; 1]%Z;
                           mortalitySamples := [/ 2; / 4];
                           normalizedWeights := PyList [];
                           mortalityResamples := [] |};
                rng := O; files := [] |} : World R nat (t R)).
  assert (Hsd : 0 < OBS_STDEV RealEnv.scenario) by (simpl; lra).
  destruct (@likelihood_weights_rank_by_distance nat RealEnv.env
              RealEnv.scenario [10; 15] w w
              [gauss_pdf 10 10 2; gauss_pdf 10 15 2]
              eq_refl Hsd eq_refl) as [_ Hrank].
  apply (Hrank 0%nat 1%nat 0%Z 1%Z 10 15); try reflexivity.
  simpl. replace (10 - 10) with 0 by ring. replace (15 - 10) with 5 by ring.
  rewrite Rabs_R0, Rabs_pos_eq; lra.
Defined.

End GaussianLikelihood.

(** ** Calibration.sample_posterior: normalization and report *)

Section Lookups.

Lemma getitem_of_nat {A} (l : list A) (k : nat) (d : A) :
  k < length l -> getitem l (Z.of_nat k) = Ok (nth k l d).
Proof.
  intros Hk. unfold getitem.
  destruct (Z.ltb_spec (Z.of_nat k) 0) as [Hneg | _]; [lia |].
  destruct (Z.leb_spec 0 (Z.of_nat k)) as [_ | Hneg]; [| lia].
  destruct (Z.ltb_spec (Z.of_nat k) (Z.of_nat (length l))) as [_ | Hge];
    [| lia].
  simpl. rewrite Nat2Z.id, (nth_error_nth' l d Hk). reflexivity.
Qed.

Lemma py_range_length (n : nat) : length (py_range n) = n.
Proof. unfold py_range. now rewrite length_map, length_seq. Qed.

Lemma py_range_nth (n k : nat) : k < n -> nth k (py_range n) 0%Z = Z.of_nat k.
Proof.
  intros Hk. unfold py_range.
  change 0%Z with (Z.of_nat 0). rewrite map_nth, seq_nth; [reflexivity | lia].
Qed.

(** A loop whose iterations all return and leave the world alone. *)
Lemma for_each_pure {W A B} (l : list A) (body : A -> M W B) (f : A -> B)
  (w : W) :
  (forall x, In x l -> body x w = (w, Ok (f x))) ->
  for_each l body w = (w, Ok (map f l)).
Proof.
  induction l as [| x l IH]; intros Hbody; simpl.
  - reflexivity.
  - unfold bind at 1. rewrite (Hbody x (or_introl eq_refl)).
    unfold bind at 1. rewrite IH; [reflexivity |].
    intros y Hy. apply Hbody. now right.
Qed.

End Lookups.

Section Normalization.
Context {F G : Type} `{Number F}.
Variable E : Env F G.
Variable Sets : Settings F.
Import Calibration.


(** The rows of the report when every id, weight and draw is there. *)
Lemma csv_rows_complete (w : World F G (t F)) (n : nat) :
  cohortIDs (self w) = py_range n ->
  length (mortalitySamples (self w)) <= n ->
  length (mortalitySamples (self w))
    <= length (items (normalizedWeights (self w))) ->
  csv_rows w =
  (w, Ok (map (fun i =>
                 [CInt (Z.of_nat i);
                  CNum (nth i (items (normalizedWeights (self w))) fzero);
                  CNum (nth i (mortalitySamples (self w)) fzero)])
              (seq 0 (length (mortalitySamples (self w)))))).
Proof.
  intros Hids Hn Hw. unfold csv_rows, bind at 1, gets, py_range.
  rewrite (for_each_pure _ _
             (fun z => [CInt z;
                        CNum (nth (Z.to_nat z)
                                (items (normalizedWeights (self w))) fzero);
                        CNum (nth (Z.to_nat z)
                                (mortalitySamples (self w)) fzero)])).
  - rewrite map_map. do 2 f_equal. apply map_ext.
    intros i. now rewrite Nat2Z.id.
  - intros z Hz. apply in_map_iff in Hz. destruct Hz as [k [<- Hk]].
    apply in_seq in Hk. unfold bind, reads, ret.
    rewrite Hids, (getitem_of_nat (py_range n) 0%Z);
      [| rewrite py_range_length; lia].
    rewrite py_range_nth by lia.
    rewrite (getitem_of_nat _ fzero) by lia.
    rewrite (getitem_of_nat _ fzero) by lia.
    now rewrite Nat2Z.id.
Qed.

End Normalization.

(** A run on binary64 numbers: one candidate, simulated at the observed
    mean; its normalized weight is 1 and the effective sample size is 1. *)
Example single_candidate_run :
  Calibration.sample_posterior FloatEnv.env FloatEnv.single_candidate 1
    (FloatEnv.start Calibration.init)
  = ({| self := {| Calibration.cohortIDs := [0%Z];
                   Calibration.mortalitySamples := [0.5%float];
                   Calibration.normalizedWeights := NdArray [1%float];
                   Calibration.mortalityResamples := [] |};
        rng := 1;
        files := [("CalibrationResults.csv"%string,
                   [Calibration.csv_header;
                    [CInt 0; CNum 1%float; CNum 0.5%float]])] |},
     Ok tt) /\
  Calibration.get_effective_sample_size
    {| Calibration.cohortIDs := [0%Z];
       Calibration.mortalitySamples := [0.5%float];
       Calibration.normalizedWeights := NdArray [1%float];
       Calibration.mortalityResamples := [] |} = Ok 1%float /\
  Calibration.get_effective_sample_size (@Calibration.init float)
  = Raise TypeError.
Proof. repeat split. Qed.

(** C2. With every simulated mean implausible the raw weights are all 0.0:
    the run returns normally and the stored weights are NaN, none of them
    non-negative. *)
Theorem degenerate_weights_are_nan :
  let run := Calibration.sample_posterior FloatEnv.env FloatEnv.implausible 2
               (FloatEnv.start Calibration.init) in
  snd run = Ok tt /\
  Calibration.normalizedWeights (self (fst run)) = NdArray [nan; nan] /\
  Forall (fun x => PrimFloat.leb 0 x = false)
    (items (Calibration.normalizedWeights (self (fst run)))).
Proof.
  vm_compute. repeat split; repeat constructor.
Qed.

(** C4. The raw weights of this run are [0.0; 0.0] and their sum is zero:
    the call does not abort before the normalization, it returns, and NaN
    weights are stored in the object and written to the report. *)
Theorem zero_weight_sum_is_not_an_error :
  exists w1,
    Calibration.raw_weights FloatEnv.env FloatEnv.implausible 2
      (FloatEnv.start Calibration.init) = (w1, Ok [0; 0]%float) /\
    py_sum [0; 0]%float = 0%float /\
    Calibration.sample_posterior FloatEnv.env FloatEnv.implausible 2
      (FloatEnv.start Calibration.init) =
    ({| self := {| Calibration.cohortIDs := [0; 1]%Z;
                   Calibration.mortalitySamples := [0.5; 0.25]%float;
                   Calibration.normalizedWeights := NdArray [nan; nan];
                   Calibration.mortalityResamples := [] |};
        rng := 2;
        files := [("CalibrationResults.csv"%string,
                   [Calibration.csv_header;
                    [CInt 0; CNum nan; CNum 0.5%float];
                    [CInt 1; CNum nan; CNum 0.25%float]])] |},
     Ok tt).
Proof.
  eexists. split; [vm_compute; reflexivity |]. split; reflexivity.
Qed.

(** ** Calibration.sample_posterior in exact arithmetic *)

Section ExactRun.
Context {G : Type}.
Variable E : Env R G.
Variable Sets : Settings R.
Import Calibration.
Local Open Scope R_scope.

Lemma gauss_pdf_pos (x loc scale : R) : 0 < scale -> 0 < gauss_pdf x loc scale.
Proof.
  intros Hs. unfold gauss_pdf.
  assert (Hc : 0 < sqrt (2 * PI)).
  { apply sqrt_lt_R0. pose proof PI_RGT_0. lra. }
  apply Rdiv_lt_0_compat; [| exact Hs].
  apply Rdiv_lt_0_compat; [apply exp_pos | exact Hc].
Qed.

Lemma py_sum_pos (l : list R) :
  Forall (fun x => 0 < x) l -> l <> [] -> 0 < py_sum l.
Proof.
  intros Hall Hne. destruct Hall as [| x l Hx Hl]; [congruence |].
  rewrite py_sum_cons.
  assert (0 <= py_sum l).
  { apply py_sum_nonneg. eapply Forall_impl; [| exact Hl].
    intros y Hy. simpl in Hy. lra. }
  lra.
Qed.



End ExactRun.

(** ** CalibratedModel: construction *)

Section Construction.
Context {F G : Type} `{Number F}.
Variable E : Env F G.
Import CalibratedModel.

Lemma init_of_columns (file : string) (ratio : option F)
  (c_id c_w c_p : list F) (more : list (list F)) :
  read_csv_cols E file 3 true true = Ok (c_id :: c_w :: c_p :: more) ->
  init E file ratio =
  Ok {| cohortIDs := map to_int c_id;
        weights := c_w;
        mortalityProbs :=
          map (fun p => fmul p match ratio with Some r => r | None => fone end)
              c_p;
        resampledMortalityProb := [];
        multiCohorts := None |}.
Proof.
  intros Hread. unfold init. rewrite Hread. unfold and_then.
  change (value ID) with (Z.of_nat 0).
  change (value W) with (Z.of_nat 1).
  change (value MORT_PROB) with (Z.of_nat 2).
  rewrite !(getitem_of_nat _ []) by (simpl; lia).
  reflexivity.
Qed.

(** C6, as the code has it. The constructor does not test the weights: when
    the reader gives back three numeric columns, the model is built whatever
    the weights add up to, and it holds the weight column exactly as it was
    read, not renormalized. *)
Theorem init_keeps_the_weights_as_read (file : string) (ratio : option F)
  (c_id c_w c_p : list F) :
  read_csv_cols E file 3 true true = Ok [c_id; c_w; c_p] ->
  exists m, init E file ratio = Ok m /\ weights m = c_w.
Proof.
  intros Hread. eexists.
  split; [apply (init_of_columns file ratio Hread) | reflexivity].
Qed.

End Construction.

(** C6, as stated, fails: a table whose weights add up to one half is loaded
    without any error, and the weights stay [0.25; 0.25]. *)
Lemma half_weights_are_loaded :
  exists m,
    CalibratedModel.init FloatEnv.env "HalfWeights.csv" None = Ok m /\
    CalibratedModel.weights m = [0.25; 0.25]%float /\
    py_sum (CalibratedModel.weights m) = 0.5%float.
Proof.
  eexists. split; [reflexivity |]. split; reflexivity.
Qed.

Lemma init_keeps_the_weights_as_read_witness :
  exists m,
    CalibratedModel.init FloatEnv.env "HalfWeights.csv" None = Ok m /\
    CalibratedModel.weights m = [0.25; 0.25]%float.
Proof.
  assert (Hread :
            read_csv_cols FloatEnv.env "HalfWeights.csv" 3 true true
            = Ok [[0; 1]; [0.25; 0.25]; [0.2; 0.8]]%float)
    by reflexivity.
  exact (init_keeps_the_weights_as_read FloatEnv.env "HalfWeights.csv" None
           Hread).
Defined.

(** C7. The loaded parameters are the third column times the effectiveness
    ratio; with the default ratio they are the column itself (in exact
    arithmetic), and the table [(0, 0.5, 0.2), (1, 0.5, 0.8)] with ratio 0.5
    gives [0.1; 0.4] in binary64 (and [0.2; 0.8] with the default ratio). *)
Theorem init_scales_parameters :
  (forall (F G : Type) (NF : Number F) (E : Env F G) (file : string)
          (ratio : F) (cols : list (list F)) (m : CalibratedModel.t F),
      read_csv_cols E file 3 true true = Ok cols ->
      CalibratedModel.init E file (Some ratio) = Ok m ->
      CalibratedModel.mortalityProbs m
      = map (fun p => fmul p ratio) (nth 2 cols [])) /\
  (forall (G : Type) (E : Env R G) (file : string)
          (cols : list (list R)) (m : CalibratedModel.t R),
      read_csv_cols E file 3 true true = Ok cols ->
      CalibratedModel.init E file None = Ok m ->
      CalibratedModel.mortalityProbs m = nth 2 cols []) /\
  (exists m,
      read_csv_cols FloatEnv.env "CalibrationResults.csv" 3 true true
      = Ok [[0; 1]; [0.5; 0.5]; [0.2; 0.8]]%float /\
      CalibratedModel.init FloatEnv.env "CalibrationResults.csv"
        (Some 0.5%float) = Ok m /\
      CalibratedModel.mortalityProbs m = [0.1; 0.4]%float) /\
  (exists m,
      CalibratedModel.init FloatEnv.env "CalibrationResults.csv" None = Ok m /\
      CalibratedModel.mortalityProbs m = [0.2; 0.8]%float).
Proof.
  assert (Hgen : forall (F G : Type) (NF : Number F) (E : Env F G) file
                        ratio cols m,
             read_csv_cols E file 3 true true = Ok cols ->
             CalibratedModel.init E file ratio = Ok m ->
             CalibratedModel.mortalityProbs m
             = map (fun p => fmul p match ratio with
                                    | Some r => r
                                    | None => fone
                                    end) (nth 2 cols [])).
  { intros F G NF E file ratio cols m Hread Hinit.
    destruct cols as [| c0 [| c1 [| c2 more]]];
      try (unfold CalibratedModel.init in Hinit; rewrite Hread in Hinit;
           discriminate).
    rewrite (init_of_columns E file ratio Hread) in Hinit.
    injection Hinit as <-. reflexivity. }
  split; [| split; [| split]].
  - intros F G NF E file ratio cols m Hread Hinit.
    apply (Hgen F G NF E file (Some ratio) cols m Hread Hinit).
  - intros G E file cols m Hread Hinit.
    rewrite (Hgen R G _ E file None cols m Hread Hinit).
    rewrite <- (map_id (nth 2 cols [])) at 2. apply map_ext.
    intros p. simpl. ring.
  - eexists. split; [reflexivity |]. split; reflexivity.
  - eexists. split; reflexivity.
Qed.

Lemma init_scales_parameters_witness :
  CalibratedModel.init FloatEnv.env "CalibrationResults.csv" (Some 0.5%float)
  = Ok {| CalibratedModel.cohortIDs := [0; 1]%Z;
          CalibratedModel.weights := [0.5; 0.5]%float;
          CalibratedModel.mortalityProbs := [0.1; 0.4]%float;
          CalibratedModel.resampledMortalityProb := [];
          CalibratedModel.multiCohorts := None |} /\
  [0.1; 0.4]%float = map (fun p => (p * 0.5)%float) [0.2; 0.8]%float.
Proof.
  assert (Hinit :
            CalibratedModel.init FloatEnv.env "CalibrationResults.csv"
              (Some 0.5%float)
            = Ok {| CalibratedModel.cohortIDs := [0; 1]%Z;
                    CalibratedModel.weights := [0.5; 0.5]%float;
                    CalibratedModel.mortalityProbs := [0.1; 0.4]%float;
                    CalibratedModel.resampledMortalityProb := [];
                    CalibratedModel.multiCohorts := None |})
    by reflexivity.
  assert (Hread :
            read_csv_cols FloatEnv.env "CalibrationResults.csv" 3 true true
            = Ok [[0; 1]; [0.5; 0.5]; [0.2; 0.8]]%float)
    by reflexivity.
  split; [exact Hinit |].
  destruct init_scales_parameters as [Hgen _].
  exact (Hgen float nat _ FloatEnv.env _ _ _ _ Hread Hinit).
Defined.

(** ** CalibratedModel.simulate: resampling *)

Section Resampling.
Context {F G : Type} `{Number F}.
Variable E : Env F G.
Import CalibratedModel.

Local Abbreviation world := (World F G (t F)).

(** The loop of lines 133-137 on row indices that exist: the ids of the rows
    are collected and their mortality probabilities are appended, in order. *)
Lemma resample_appends (idx : list nat) (w : world) :
  Forall (fun i => i < length (cohortIDs (self w)) /\
                   i < length (mortalityProbs (self w))) idx ->
  resample idx w =
  (with_resampled w (resampledMortalityProb (self w) ++ picked (self w) idx),
   Ok (map (fun i => nth i (cohortIDs (self w)) 0%Z) idx)).
Proof.
  revert w. induction idx as [| i idx IH]; intros w Hidx.
  - unfold resample, with_resampled, picked. simpl. rewrite app_nil_r.
    destruct w as [[? ? ? ? ?] ? ?]. reflexivity.
  - inversion Hidx as [| ? ? [Hi1 Hi2] Hrest]; subst.
    unfold resample in *. simpl for_each.
    unfold bind at 1 2 3 4, reads, append_resampled, update, modify, ret.
    rewrite (getitem_of_nat _ 0%Z Hi1), (getitem_of_nat _ fzero Hi2).
    unfold bind at 1. rewrite IH by exact Hrest.
    unfold with_resampled, picked. simpl. rewrite <- app_assoc. reflexivity.
Qed.

(** After the resampling loop nothing touches the accumulated list. *)
Lemma after_resample_keeps (xs : list F) (k size steps : nat)
  (cohort_ids : option (list Z)) (resampled_ids : list Z) :
  keeps (on_self (F := F) (G := G)
           (fun m : t F => resampledMortalityProb m = xs))
    (let mc := {| ids := match cohort_ids with
                         | None => resampled_ids
                         | Some given => given
                         end;
                  pop_sizes := repeat size k;
                  meanSurvivalTimes := None |} in
     probs <- gets (fun w : world => resampledMortalityProb (self w)) ;;
     lift (MultiCohort_init E (ids mc) (pop_sizes mc) probs) ;;
     set_multiCohorts mc ;;
     times <- with_rng (fun g =>
       MultiCohort_simulate E g (ids mc) (pop_sizes mc) probs steps) ;;
     set_multiCohorts
       {| ids := ids mc; pop_sizes := pop_sizes mc;
          meanSurvivalTimes := Some times |})%py.
Proof.
  cbv zeta. unfold set_multiCohorts. frame; assumption.
Qed.

(** One call: when [np.random.choice] hands out [k] row indices of the
    table, their [k] mortality probabilities are appended to the accumulated
    list, whether or not the simulator succeeds afterwards. *)
Lemma simulate_appends (k size steps : nat) (cohort_ids : option (list Z))
  (w : world) (g1 : G) (idx : list nat) :
  np_random_choice E (rng w) (length (weights (self w))) k (weights (self w))
    = (g1, Ok idx) ->
  length idx = k ->
  Forall (fun i => i < length (cohortIDs (self w)) /\
                   i < length (mortalityProbs (self w))) idx ->
  let w' := fst (simulate E k size steps cohort_ids w) in
  resampledMortalityProb (self w')
  = resampledMortalityProb (self w) ++ picked (self w) idx /\
  length (resampledMortalityProb (self w'))
  = length (resampledMortalityProb (self w)) + k.
Proof.
  intros Hchoice Hlen Hidx w'.
  assert (Hres : resampledMortalityProb (self w')
                 = resampledMortalityProb (self w) ++ picked (self w) idx).
  { subst w'. unfold simulate, bind at 1, gets.
    unfold bind at 1, with_rng at 1. rewrite Hchoice.
    set (w1 := {| self := self w; rng := g1; files := files w |}).
    unfold bind at 1. rewrite (resample_appends w1 Hidx).
    apply (@after_resample_keeps
             (resampledMortalityProb (self w) ++ picked (self w) idx)
             k size steps cohort_ids _
             (with_resampled w1
                (resampledMortalityProb (self w1) ++ picked (self w1) idx))).
    reflexivity. }
  split; [exact Hres |].
  rewrite Hres, length_app. unfold picked. now rewrite length_map, Hlen.
Qed.

(** Nothing is ever removed: the list after a call starts with the list
    before it, however the call ends. *)
Lemma simulate_extends (k size steps : nat) (cohort_ids : option (list Z))
  (w : world) :
  exists more,
    resampledMortalityProb (self (fst (simulate E k size steps cohort_ids w)))
    = resampledMortalityProb (self w) ++ more.
Proof.
  set (Q := fun m : t F =>
              exists more,
                resampledMortalityProb m
                = resampledMortalityProb (self w) ++ more).
  assert (Hk : keeps (on_self (F := F) (G := G) Q)
                 (simulate E k size steps cohort_ids)).
  { unfold simulate, resample, append_resampled, set_multiCohorts.
    frame; try assumption.
    match goal with Hq : Q _ |- _ => destruct Hq as [more Hmore] end.
    unfold Q. eexists. simpl. rewrite Hmore, <- app_assoc. reflexivity. }
  apply (Hk w). exists []. now rewrite app_nil_r.
Qed.

End Resampling.

Section Simulate.
Context {F G : Type} `{Number F}.
Variable E : Env F G.
Import CalibratedModel.

Local Abbreviation world := (World F G (t F)).
Local Abbreviation rows_exist w :=
  (Forall (fun i => i < length (cohortIDs (self w)) /\
                    i < length (mortalityProbs (self w)))).

(** C9. A call with [k] cohorts appends the [k] resampled mortality
    probabilities to the accumulated list and removes nothing; a later call
    appends after them; and the credible interval is that of the whole
    accumulated list. *)
Theorem simulate_accumulates (k size steps : nat)
  (cohort_ids : option (list Z)) (w : world) (g1 : G) (idx : list nat) :
  np_random_choice E (rng w) (length (weights (self w))) k (weights (self w))
    = (g1, Ok idx) ->
  length idx = k ->
  rows_exist w idx ->
  let w' := fst (simulate E k size steps cohort_ids w) in
  let accumulated := resampledMortalityProb (self w) ++ picked (self w) idx in
  resampledMortalityProb (self w') = accumulated /\
  length (resampledMortalityProb (self w'))
  = length (resampledMortalityProb (self w)) + k /\
  (forall alpha,
      get_mortality_estimate_credible_interval E alpha (self w')
      = and_then (SummaryStat_get_mean E accumulated) (fun estimate =>
        and_then (SummaryStat_get_PI E accumulated alpha) (fun interval =>
        Ok (estimate, interval)))) /\
  (forall k2 size2 steps2 cohort_ids2 g2 idx2,
      np_random_choice E (rng w') (length (weights (self w'))) k2
        (weights (self w')) = (g2, Ok idx2) ->
      length idx2 = k2 ->
      rows_exist w idx2 ->
      let w'' := fst (simulate E k2 size2 steps2 cohort_ids2 w') in
      resampledMortalityProb (self w'')
      = accumulated ++ picked (self w) idx2 /\
      length (resampledMortalityProb (self w''))
      = length (resampledMortalityProb (self w)) + k + k2).
Proof.
  intros Hchoice Hlen Hidx w' accumulated.
  destruct (simulate_appends E size steps cohort_ids w Hchoice Hlen Hidx)
    as [Hacc Hcount].
  fold w' in Hacc, Hcount.
  split; [exact Hacc |]. split; [exact Hcount |]. split.
  - intros alpha. unfold get_mortality_estimate_credible_interval.
    now rewrite Hacc.
  - intros k2 size2 steps2 cohort_ids2 g2 idx2 Hchoice2 Hlen2 Hidx2 w''.
    destruct (simulate_frame E k size steps cohort_ids w)
      as [Hids [_ Hprobs]].
    fold w' in Hids, Hprobs.
    assert (Hidx2' : rows_exist w' idx2) by now rewrite Hids, Hprobs.
    destruct (simulate_appends E size2 steps2 cohort_ids2 w' Hchoice2 Hlen2
                Hidx2') as [Hacc2 Hcount2].
    fold w'' in Hacc2, Hcount2. split.
    + rewrite Hacc2, Hacc. unfold picked. now rewrite Hprobs.
    + rewrite Hcount2, Hcount. reflexivity.
Qed.

(** C8, as the code has it. The number of supplied [cohort_ids] is never
    compared with the number of cohorts: after the resampling the supplied
    ids go to the simulator as they are, next to
    [num_of_simulated_cohorts] population sizes and the accumulated
    probabilities, and the call ends as the simulator ends. *)
Theorem simulate_hands_cohort_ids_over (k size steps : nat)
  (given : list Z) (w : world) (g1 g2 : G) (idx : list nat)
  (r : Result (list F)) :
  np_random_choice E (rng w) (length (weights (self w))) k (weights (self w))
    = (g1, Ok idx) ->
  rows_exist w idx ->
  let accumulated := resampledMortalityProb (self w) ++ picked (self w) idx in
  MultiCohort_init E given (repeat size k) accumulated = Ok tt ->
  MultiCohort_simulate E g1 given (repeat size k) accumulated steps
    = (g2, r) ->
  let out := simulate E k size steps (Some given) w in
  snd out = and_then r (fun _ => Ok tt) /\
  resampledMortalityProb (self (fst out)) = accumulated /\
  exists mc, multiCohorts (self (fst out)) = Some mc /\
             ids mc = given /\
             pop_sizes mc = repeat size k.
Proof.
  intros Hchoice Hidx accumulated Hinit Hsim out.
  assert (Hout : out =
    ({| self := {| cohortIDs := cohortIDs (self w);
                   weights := weights (self w);
                   mortalityProbs := mortalityProbs (self w);
                   resampledMortalityProb := accumulated;
                   multiCohorts :=
                     Some {| ids := given;
                             pop_sizes := repeat size k;
                             meanSurvivalTimes :=
                               match r with
                               | Ok times => Some times
                               | Raise _ => None
                               end |} |};
        rng := g2;
        files := files w |},
     and_then r (fun _ => Ok tt))).
  { subst out. unfold simulate, bind at 1, gets.
    unfold bind at 1, with_rng at 1. rewrite Hchoice.
    set (w1 := {| self := self w; rng := g1; files := files w |}).
    unfold bind at 1. rewrite (resample_appends w1 Hidx).
    change (resampledMortalityProb (self w1) ++ picked (self w1) idx)
      with accumulated.
    cbv zeta. unfold bind at 1, gets. cbn [ids pop_sizes].
    change (resampledMortalityProb (self (with_resampled w1 accumulated)))
      with accumulated.
    unfold bind at 1, lift. rewrite Hinit.
    unfold bind at 1, set_multiCohorts at 1, update, modify.
    unfold bind at 1, with_rng. cbn [rng with_resampled w1]. rewrite Hsim.
    destruct r as [times | e]; reflexivity. }
  rewrite Hout. simpl. split; [reflexivity |]. split; [reflexivity |].
  eexists. split; [reflexivity |]. split; reflexivity.
Qed.

End Simulate.

(** C8, as stated, fails: two cohorts are asked for and one id is supplied;
    the call resamples two probabilities, builds the multi cohort with the
    single id and two population sizes, simulates it and returns. *)
Lemma one_id_for_two_cohorts_is_simulated :
  CalibratedModel.init FloatEnv.env "CalibrationResults.csv" None
  = Ok FloatEnv.loaded /\
  length [7%Z] <> 2 /\
  CalibratedModel.simulate FloatEnv.env 2 10 5 (Some [7%Z])
    (FloatEnv.start FloatEnv.loaded)
  = ({| self := {| CalibratedModel.cohortIDs := [0; 1]%Z;
                   CalibratedModel.weights := [0.5; 0.5]%float;
                   CalibratedModel.mortalityProbs := [0.2; 0.8]%float;
                   CalibratedModel.resampledMortalityProb := [0.2; 0.8]%float;
                   CalibratedModel.multiCohorts :=
                     Some {| CalibratedModel.ids := [7%Z];
                             CalibratedModel.pop_sizes := [10; 10];
                             CalibratedModel.meanSurvivalTimes :=
                               Some (stub_outcomes 20 [0.2; 0.8])%float |} |};
        rng := 2;
        files := [] |},
     Ok tt).
Proof.
  split; [reflexivity |]. split; [simpl; lia | reflexivity].
Qed.

Lemma simulate_hands_cohort_ids_over_witness :
  snd (CalibratedModel.simulate FloatEnv.env 2 10 5 (Some [7%Z])
         (FloatEnv.start FloatEnv.loaded)) = Ok tt.
Proof.
  set (w := FloatEnv.start FloatEnv.loaded).
  assert (Hchoice :
            np_random_choice FloatEnv.env (rng w)
              (length (CalibratedModel.weights (self w))) 2
              (CalibratedModel.weights (self w)) = (2, Ok [0; 1]))
    by reflexivity.
  assert (Hrows :
            Forall (fun i =>
                      i < length (CalibratedModel.cohortIDs (self w)) /\
                      i < length (CalibratedModel.mortalityProbs (self w)))
                   [0; 1])
    by (repeat constructor).
  assert (Hinit :
            MultiCohort_init FloatEnv.env [7%Z] (repeat 10 2)
              (CalibratedModel.resampledMortalityProb (self w)
               ++ picked (self w) [0; 1]) = Ok tt)
    by reflexivity.
  assert (Hsim :
            MultiCohort_simulate FloatEnv.env 2 [7%Z] (repeat 10 2)
              (CalibratedModel.resampledMortalityProb (self w)
               ++ picked (self w) [0; 1]) 5
            = (2, Ok (stub_outcomes 20 [0.2; 0.8])%float))
    by reflexivity.
  destruct (@simulate_hands_cohort_ids_over float nat _ FloatEnv.env 2 10 5
              [7%Z] w 2 2 [0; 1] _ Hchoice Hrows Hinit Hsim) as [Hout _].
  exact Hout.
Defined.

(** One value is there from an earlier call; a call with three cohorts
    appends three. *)
Lemma simulate_accumulates_witness :
  CalibratedModel.resampledMortalityProb
    (self (fst (CalibratedModel.simulate FloatEnv.env 3 10 5 None
                  (FloatEnv.start FloatEnv.resampled_once))))
  = [0.8; 0.2; 0.8; 0.2]%float.
Proof.
  set (w := FloatEnv.start FloatEnv.resampled_once).
  assert (Hchoice :
            np_random_choice FloatEnv.env (rng w)
              (length (CalibratedModel.weights (self w))) 3
              (CalibratedModel.weights (self w)) = (3, Ok [0; 1; 0]))
    by reflexivity.
  assert (Hrows :
            Forall (fun i =>
                      i < length (CalibratedModel.cohortIDs (self w)) /\
                      i < length (CalibratedModel.mortalityProbs (self w)))
                   [0; 1; 0])
    by (repeat constructor).
  destruct (@simulate_accumulates float nat _ FloatEnv.env 3 10 5 None w 3
              [0; 1; 0] Hchoice eq_refl Hrows) as [Hacc _].
  exact Hacc.
Defined.

(** * Further properties *)

(** ** Loops that stop at the first exception *)

Section Stops.

Lemma getitem_out_of_range {A} (l : list A) (k : nat) :
  length l <= k -> getitem l (Z.of_nat k) = Raise IndexError.
Proof.
  intros Hk. unfold getitem.
  destruct (Z.ltb_spec (Z.of_nat k) 0) as [Hneg | _]; [lia |].
  destruct (Z.leb_spec 0 (Z.of_nat k)) as [_ | Hneg]; [| lia].
  destruct (Z.ltb_spec (Z.of_nat k) (Z.of_nat (length l))) as [Hlt | _];
    [lia | reflexivity].
Qed.

Lemma for_each_stops {W A B} (l1 : list A) (x : A) (l2 : list A)
  (body : A -> M W B) (f : A -> B) (w : W) (e : exn) :
  (forall y, In y l1 -> body y w = (w, Ok (f y))) ->
  body x w = (w, Raise e) ->
  for_each (l1 ++ x :: l2) body w = (w, Raise e).
Proof.
  induction l1 as [| y l1 IH]; intros Hpure Hx; simpl.
  - unfold bind at 1. now rewrite Hx.
  - unfold bind at 1. rewrite (Hpure y (or_introl eq_refl)).
    unfold bind at 1. rewrite IH; [reflexivity | | exact Hx].
    intros z Hz. apply Hpure. now right.
Qed.

Lemma py_range_split (n N : nat) :
  n < N ->
  py_range N
  = py_range n ++ Z.of_nat n :: map Z.of_nat (seq (S n) (N - S n)).
Proof.
  intros Hn. unfold py_range.
  replace N with (n + S (N - S n)) at 1 by lia.
  rewrite seq_app, map_app. reflexivity.
Qed.

End Stops.

(** ** Calibration.sample_posterior: the whole run *)

Section WholeRun.
Context {F G : Type} `{Number F}.
Variable E : Env F G.
Variable Sets : Settings F.
Import Calibration.

Local Abbreviation world := (World F G (t F)).
Local Abbreviation seeded := (draws E (PRIOR_N Sets) (np_random_seed E 1)).
Local Abbreviation pop_sizes := (repeat (SIM_POP_SIZE Sets) (PRIOR_N Sets)).

Lemma prior_draws_length : length (prior_draws E Sets) = PRIOR_N Sets.
Proof. unfold prior_draws. rewrite length_map. apply draws_length. Qed.

(** The likelihood loop over the ids of [range(n)]: it needs a mean for
    every id and leaves the world alone. *)
Lemma likelihood_weights_run (means : list F) (w : world) (n : nat) :
  cohortIDs (self w) = py_range n ->
  likelihood_weights E Sets means w
  = (w, if n <=? length means
        then Ok (weights_of_means E Sets n means)
        else Raise IndexError).
Proof.
  intros Hids. unfold likelihood_weights, bind at 1, gets. rewrite Hids.
  destruct (Nat.leb_spec n (length means)) as [Hle | Hgt].
  - unfold py_range, weights_of_means.
    rewrite (for_each_pure _ _
               (fun z => norm_pdf E (OBS_MEAN Sets)
                           (nth (Z.to_nat z) means fzero) (OBS_STDEV Sets))).
    + rewrite map_map. do 2 f_equal. apply map_ext.
      intros i. now rewrite Nat2Z.id.
    + intros z Hz. apply in_map_iff in Hz. destruct Hz as [k [<- Hk]].
      apply in_seq in Hk. unfold bind, lift, ret.
      rewrite (getitem_of_nat _ fzero) by lia. now rewrite Nat2Z.id.
  - rewrite (py_range_split Hgt).
    apply for_each_stops
      with (f := fun z => norm_pdf E (OBS_MEAN Sets)
                            (nth (Z.to_nat z) means fzero) (OBS_STDEV Sets)).
    + intros z Hz. apply in_map_iff in Hz. destruct Hz as [k [<- Hk]].
      apply in_seq in Hk. unfold bind, lift, ret.
      rewrite (getitem_of_nat _ fzero) by lia. now rewrite Nat2Z.id.
    + unfold bind, lift. now rewrite getitem_out_of_range.
Qed.

(** The report loop when there are more draws than ids: the row after the
    last id asks for an id that is not there. *)
Lemma csv_rows_short (w : world) (n : nat) :
  cohortIDs (self w) = py_range n ->
  n < length (mortalitySamples (self w)) ->
  n <= length (items (normalizedWeights (self w))) ->
  csv_rows w = (w, Raise IndexError).
Proof.
  intros Hids Hn Hw. unfold csv_rows, bind at 1, gets.
  rewrite (py_range_split Hn).
  apply for_each_stops with (f := fun z => report_row (self w) (Z.to_nat z)).
  - intros z Hz. apply in_map_iff in Hz. destruct Hz as [k [<- Hk]].
    apply in_seq in Hk. unfold bind, reads, ret, report_row.
    rewrite Hids, (getitem_of_nat (py_range n) 0%Z);
      [| rewrite py_range_length; lia].
    rewrite py_range_nth by lia.
    rewrite (getitem_of_nat _ fzero) by lia.
    rewrite (getitem_of_nat _ fzero) by lia.
    now rewrite Nat2Z.id.
  - unfold bind, reads. rewrite Hids, getitem_out_of_range; [reflexivity |].
    now rewrite py_range_length.
Qed.

(** Every way a run can go, with the world it leaves. The first test is the
    one of [np.random.uniform] on the width of the prior range. *)
Lemma sample_posterior_run (n : nat) (w : world) :
  let drawn := {| cohortIDs := py_range n;
                  mortalitySamples := prior_draws E Sets;
                  normalizedWeights := normalizedWeights (self w);
                  mortalityResamples := mortalityResamples (self w) |} in
  let built := MultiCohort_init E (py_range n) pop_sizes (prior_draws E Sets) in
  let simulated :=
    MultiCohort_simulate E (snd seeded) (py_range n) pop_sizes
      (prior_draws E Sets) (TIME_STEPS Sets) in
  sample_posterior E Sets n w =
  if negb (fis_finite (fsub (PRIOR_U Sets) (PRIOR_L Sets))) then
    ({| self := {| cohortIDs := py_range n;
                   mortalitySamples := mortalitySamples (self w);
                   normalizedWeights := normalizedWeights (self w);
                   mortalityResamples := mortalityResamples (self w) |};
        rng := np_random_seed E 1; files := files w |},
     Raise OverflowError)
  else
  match built with
  | Raise e => ({| self := drawn; rng := snd seeded; files := files w |},
                Raise e)
  | Ok _ =>
      match snd simulated with
      | Raise e =>
          ({| self := drawn; rng := fst simulated; files := files w |},
           Raise e)
      | Ok means =>
          if n <=? length means then
            let ws := weights_of_means E Sets n means in
            let weighted :=
              {| cohortIDs := py_range n;
                 mortalitySamples := prior_draws E Sets;
                 normalizedWeights := NdArray (np_divide ws (py_sum ws));
                 mortalityResamples := mortalityResamples (self w) |} in
            if PRIOR_N Sets <=? n then
              ({| self := weighted; rng := fst simulated;
                  files :=
                    files w ++
                    [("CalibrationResults.csv"%string,
                      csv_header ::
                      map (report_row weighted) (seq 0 (PRIOR_N Sets)))] |},
               Ok tt)
            else
              ({| self := weighted; rng := fst simulated; files := files w |},
               Raise IndexError)
          else
            ({| self := drawn; rng := fst simulated; files := files w |},
             Raise IndexError)
      end
  end.
Proof.
  cbv zeta. unfold sample_posterior, bind at 1.
  destruct (fis_finite (fsub (PRIOR_U Sets) (PRIOR_L Sets))) eqn:Hfinite;
    cbn [negb].
  2: { now rewrite (raw_weights_overflow E Sets n w Hfinite). }
  rewrite (raw_weights_from_drawn E Sets n w Hfinite).
  cbv zeta. fold (prior_draws E Sets).
  unfold bind at 1, simulate_multi_cohort.
  unfold bind at 1 2 3, gets, lift. cbn [self cohortIDs mortalitySamples].
  destruct (MultiCohort_init E (py_range n) pop_sizes (prior_draws E Sets))
    as [[] | e]; [| reflexivity].
  unfold with_rng. cbn [rng self files].
  destruct (MultiCohort_simulate E (snd seeded) (py_range n) pop_sizes
              (prior_draws E Sets) (TIME_STEPS Sets)) as [g' [means | e]];
    [| reflexivity].
  cbn [fst snd].
  match goal with
  | |- context [likelihood_weights E Sets means ?w2] =>
      rewrite (@likelihood_weights_run means w2 n eq_refl)
  end.
  destruct (Nat.leb_spec n (length means)) as [Hle | Hgt]; [| reflexivity].
  unfold normalize_and_report, bind at 1.
  unfold set_normalizedWeights, update, modify.
  cbn [self cohortIDs mortalitySamples normalizedWeights mortalityResamples
       rng files].
  set (ws := weights_of_means E Sets n means).
  assert (Hws : length (np_divide ws (py_sum ws)) = n).
  { unfold np_divide, ws, weights_of_means.
    now rewrite !length_map, length_seq. }
  unfold bind at 1.
  destruct (Nat.leb_spec (PRIOR_N Sets) n) as [HN | HN].
  - rewrite (csv_rows_complete _ (n := n)); cbn [self cohortIDs
      mortalitySamples normalizedWeights items rng files];
      try rewrite prior_draws_length; try reflexivity; lia.
  - rewrite (csv_rows_short _ (n := n)); cbn [self cohortIDs
      mortalitySamples normalizedWeights items rng files];
      try rewrite prior_draws_length; try reflexivity; lia.
Qed.

End WholeRun.

Section RunProperties.
Context {F G : Type} `{Number F}.
Variable E : Env F G.
Variable Sets : Settings F.
Import Calibration.

Local Abbreviation world := (World F G (t F)).

(** Splits a run into the ways it can go. *)
Ltac run_cases n w :=
  rewrite (sample_posterior_run E Sets n w); cbv zeta;
  unfold means_of_run, simulated_means, and_then;
  destruct (fis_finite (fsub (PRIOR_U Sets) (PRIOR_L Sets))); cbn [negb];
  [ destruct (MultiCohort_init E (py_range n) _ _) as [[] | ?];
    [ destruct (snd (MultiCohort_simulate E _ (py_range n) _ _ _)) as [? | ?];
      [ destruct (n <=? length _);
        [ destruct (PRIOR_N Sets <=? n) | ] | ] | ] | ];
  cbn [fst snd self files cohortIDs mortalitySamples normalizedWeights
       mortalityResamples andb].

(** X1. A run starts from the seed and the ids of [range(n_samples)]: the
    generator state and the ids the object had before the call change nothing
    of what the call returns and leaves. When the width of the prior range is
    finite the draws are fresh too, and the draws the object had change
    nothing either. *)
Theorem sample_posterior_forgets_the_past (n_samples : nat) (w : world) :
  (forall (g : G) (ids : list Z),
      sample_posterior E Sets n_samples
        {| self := {| cohortIDs := ids;
                      mortalitySamples := mortalitySamples (self w);
                      normalizedWeights := normalizedWeights (self w);
                      mortalityResamples := mortalityResamples (self w) |};
           rng := g;
           files := files w |}
      = sample_posterior E Sets n_samples w) /\
  (fis_finite (fsub (PRIOR_U Sets) (PRIOR_L Sets)) = true ->
   forall (g : G) (ids : list Z) (samples : list F),
      sample_posterior E Sets n_samples
        {| self := {| cohortIDs := ids;
                      mortalitySamples := samples;
                      normalizedWeights := normalizedWeights (self w);
                      mortalityResamples := mortalityResamples (self w) |};
           rng := g;
           files := files w |}
      = sample_posterior E Sets n_samples w).
Proof.
  split.
  - intros g ids. rewrite !sample_posterior_run. reflexivity.
  - intros Hfinite g ids samples. rewrite !sample_posterior_run.
    cbv zeta. rewrite Hfinite. reflexivity.
Qed.

(** X2. However a call ends, the object then holds the ids of
    [range(n_samples)], and [mortalityResamples] is what it was: no line
    assigns it. The draws are the [PRIOR_N] values drawn from the seeded
    generator when the width of the prior range is finite; when it is not,
    [np.random.uniform] raises and the draws of the object are what they
    were. *)
Theorem sample_posterior_leaves_behind (n_samples : nat) (w : world) :
  let c := self (fst (sample_posterior E Sets n_samples w)) in
  cohortIDs c = py_range n_samples /\
  mortalitySamples c
  = (if fis_finite (fsub (PRIOR_U Sets) (PRIOR_L Sets))
     then prior_draws E Sets
     else mortalitySamples (self w)) /\
  (fis_finite (fsub (PRIOR_U Sets) (PRIOR_L Sets)) = true ->
   length (mortalitySamples c) = PRIOR_N Sets) /\
  mortalityResamples c = mortalityResamples (self w).
Proof.
  cbv zeta.
  rewrite (sample_posterior_run E Sets n_samples w); cbv zeta.
  destruct (fis_finite (fsub (PRIOR_U Sets) (PRIOR_L Sets))); cbn [negb].
  2: { cbn [fst self cohortIDs mortalitySamples mortalityResamples].
       repeat split; try reflexivity. discriminate. }
  destruct (MultiCohort_init E (py_range n_samples) _ _) as [[] | ?];
    [ destruct (snd (MultiCohort_simulate E _ (py_range n_samples) _ _ _))
        as [? | ?];
      [ destruct (n_samples <=? length _);
        [ destruct (PRIOR_N Sets <=? n_samples) | ] | ] | ];
    cbn [fst self cohortIDs mortalitySamples mortalityResamples];
    (repeat split; try reflexivity; intros _; apply prior_draws_length).
Qed.


(** X4. The report is written by a call that returns and by no other: a
    failed call leaves the files alone, and a call that returns adds one
    file, the header followed by [PRIOR_N] rows that hold, position by
    position, the weight and the draw the object holds after the call. *)
Theorem report_matches_the_object (n_samples : nat) (w : world) :
  let run := sample_posterior E Sets n_samples w in
  files (fst run)
  = match snd run with
    | Ok _ =>
        files w ++
        [("CalibrationResults.csv"%string,
          csv_header ::
          map (report_row (self (fst run))) (seq 0 (PRIOR_N Sets)))]
    | Raise _ => files w
    end.
Proof.
  cbv zeta. run_cases n_samples w; reflexivity.
Qed.

(** X5. The weights of the object are replaced only when the likelihood loop
    has got through: if the draw or the simulator fails, or the simulator
    gives fewer means than ids, the weights of an earlier run stay, although
    the ids are already new; otherwise the new weights are in place even when
    the report fails afterwards. *)
Theorem weights_replaced_once_weighed (n_samples : nat) (w : world) :
  normalizedWeights (self (fst (sample_posterior E Sets n_samples w)))
  = match means_of_run E Sets n_samples with
    | Ok means =>
        if n_samples <=? length means
        then let ws := weights_of_means E Sets n_samples means in
             NdArray (np_divide ws (py_sum ws))
        else normalizedWeights (self w)
    | Raise _ => normalizedWeights (self w)
    end.
Proof.
  run_cases n_samples w; reflexivity.
Qed.

End RunProperties.

(** A prior from the least to the greatest binary64 number: the draw raises,
    and the object keeps the draws and the weights of the earlier run under
    the ids of the new one. *)
Example too_wide_prior_run :
  Calibration.sample_posterior FloatEnv.env too_wide 2
    (FloatEnv.start earlier_run)
  = ({| self := {| Calibration.cohortIDs := [0; 1]%Z;
                   Calibration.mortalitySamples := [0.9; 0.1; 0.3]%float;
                   Calibration.normalizedWeights :=
                     NdArray [0.5; 0.25; 0.25]%float;
                   Calibration.mortalityResamples := [] |};
        rng := np_random_seed FloatEnv.env 1;
        files := files (FloatEnv.start earlier_run) |},
     Raise OverflowError).
Proof. reflexivity. Qed.

Lemma sample_posterior_forgets_the_past_witness :
  Calibration.sample_posterior FloatEnv.env FloatEnv.implausible 2
    {| self := {| Calibration.cohortIDs := [7; 8; 9]%Z;
                  Calibration.mortalitySamples := [0.9; 0.1; 0.3]%float;
                  Calibration.normalizedWeights := PyList [];
                  Calibration.mortalityResamples := [] |};
       rng := 3;
       files := [] |}
  = Calibration.sample_posterior FloatEnv.env FloatEnv.implausible 2
      (FloatEnv.start Calibration.init).
Proof.
  pose proof (@sample_posterior_forgets_the_past float nat _ FloatEnv.env
                FloatEnv.implausible 2 (FloatEnv.start Calibration.init))
    as [_ Hfresh].
  assert (Hfinite :
            fis_finite (fsub (PRIOR_U FloatEnv.implausible)
                          (PRIOR_L FloatEnv.implausible)) = true)
    by reflexivity.
  exact (Hfresh Hfinite 3 [7; 8; 9]%Z [0.9; 0.1; 0.3]%float).
Defined.

Lemma sample_posterior_leaves_behind_witness :
  length
    (Calibration.mortalitySamples
       (self (fst (Calibration.sample_posterior FloatEnv.env
                     FloatEnv.implausible 2
                     (FloatEnv.start Calibration.init)))))
  = 2.
Proof.
  pose proof (@sample_posterior_leaves_behind float nat _ FloatEnv.env
                FloatEnv.implausible 2 (FloatEnv.start Calibration.init))
    as Hleft.
  cbv zeta in Hleft. destruct Hleft as [_ [_ [Hlen _]]].
  apply Hlen. reflexivity.
Defined.

(** ** Calibration in exact arithmetic: prior interval and sample size *)

Section ExactProperties.
Context {G : Type}.
Variable E : Env R G.
Variable Sets : Settings R.
Import Calibration.
Local Open Scope R_scope.

Local Abbreviation world := (World R G (t R)).

Lemma draws_in_unit_interval (n : nat) (g : G) :
  unit_draws E -> Forall (fun u => 0 <= u <= 1) (fst (draws E n g)).
Proof.
  intros Hunit. revert g. induction n as [| k IH]; intros g; simpl.
  - constructor.
  - specialize (Hunit g). destruct (np_random_sample E g) as [u g1].
    specialize (IH g1). destruct (draws E k g1) as [us g2].
    simpl in *. constructor; assumption.
Qed.

Lemma prior_draws_in_interval :
  unit_draws E -> PRIOR_L Sets <= PRIOR_U Sets ->
  Forall (fun p => PRIOR_L Sets <= p <= PRIOR_U Sets) (prior_draws E Sets).
Proof.
  intros Hunit Hprior. unfold prior_draws. apply Forall_map.
  eapply Forall_impl; [| apply draws_in_unit_interval, Hunit].
  intros u Hu. simpl in *. split; nra.
Qed.

(** X6. When the generator draws from the unit interval and the prior
    bounds are in order, every mortality probability the object holds after
    a call lies between [PRIOR_L] and [PRIOR_U], however the call ends. *)
Theorem samples_lie_in_the_prior (n_samples : nat) (w : world) :
  unit_draws E ->
  PRIOR_L Sets <= PRIOR_U Sets ->
  Forall (fun p => PRIOR_L Sets <= p <= PRIOR_U Sets)
    (mortalitySamples (self (fst (sample_posterior E Sets n_samples w)))).
Proof.
  intros Hunit Hprior.
  pose proof (prior_draws_in_interval Hunit Hprior) as Hall.
  rewrite (sample_posterior_run E Sets n_samples w). cbv zeta.
  change (negb (fis_finite _)) with false. cbv iota.
  destruct (MultiCohort_init E _ _ _) as [[] | e]; [| exact Hall].
  destruct (snd (MultiCohort_simulate E _ _ _ _ _)) as [means | e];
    [| exact Hall].
  destruct (n_samples <=? length means); [| exact Hall].
  destruct (PRIOR_N Sets <=? n_samples); exact Hall.
Qed.

Lemma py_sum_square_divide (l : list R) (d : R) :
  d <> 0 ->
  py_sum (np_square (np_divide l d)) = py_sum (np_square l) / (d * d).
Proof.
  intros Hd. induction l as [| x l IH].
  - simpl. rewrite py_sum_nil. field. exact Hd.
  - change (np_divide (x :: l) d) with (x / d :: np_divide l d).
    rewrite !py_sum_square_cons, IH. field. exact Hd.
Qed.

Lemma py_sum_square_zero (l : list R) :
  py_sum (np_square l) = 0 -> py_sum l = 0.
Proof.
  induction l as [| x l IH]; intros Hsq.
  - apply py_sum_nil.
  - rewrite py_sum_square_cons in Hsq. rewrite py_sum_cons.
    pose proof (py_sum_square_nonneg l) as Hl.
    pose proof (Rle_0_sqr x) as Hx. unfold Rsqr in Hx.
    assert (Hxx : x * x = 0) by lra.
    destruct (Rmult_integral _ _ Hxx) as [-> | ->]; rewrite IH; lra.
Qed.

(** The sample size of normalized weights, from the raw weights. *)
Lemma sample_size_of_quotients (ws : list R) :
  py_sum ws <> 0 ->
  1 / np_sum (np_square (np_divide ws (py_sum ws)))
  = py_sum ws * py_sum ws / py_sum (np_square ws).
Proof.
  intros Hsum. unfold np_sum. rewrite (py_sum_square_divide ws Hsum).
  assert (Hsq : py_sum (np_square ws) <> 0).
  { intros H0. apply Hsum. now apply py_sum_square_zero. }
  field. split; assumption.
Qed.

(** X7. After a call that got through the likelihood loop with raw weights
    [ws] of non-zero sum, the effective sample size is
    [(sum ws)^2 / sum (ws^2)]: it can be read off the raw weights, and a
    common factor of the raw weights does not change it. *)
Theorem effective_sample_size_of_raw_weights (n_samples : nat) (w : world)
  (means : list R) :
  simulated_means E Sets n_samples = Ok means ->
  (n_samples <= length means)%nat ->
  let ws := weights_of_means E Sets n_samples means in
  py_sum ws <> 0 ->
  get_effective_sample_size
    (self (fst (sample_posterior E Sets n_samples w)))
  = Ok (py_sum ws * py_sum ws / py_sum (np_square ws)).
Proof.
  intros Hmeans Hlen ws Hsum.
  rewrite (sample_posterior_run E Sets n_samples w). cbv zeta.
  change (negb (fis_finite _)) with false. cbv iota.
  unfold simulated_means, and_then in Hmeans.
  destruct (MultiCohort_init E _ _ _) as [[] | e]; [| discriminate].
  rewrite Hmeans.
  destruct (Nat.leb_spec n_samples (length means)) as [_ | Hgt]; [| lia].
  fold ws.
  destruct (PRIOR_N Sets <=? n_samples);
    unfold get_effective_sample_size; cbn [fst self normalizedWeights];
    f_equal; apply (sample_size_of_quotients ws Hsum).
Qed.



End ExactProperties.

Lemma run_of_outcome {W A} (p : W * Result A) (r : Result A) :
  snd p = r -> p = (fst p, r).
Proof. destruct p. simpl. now intros ->. Qed.

Lemma RealEnv_unit_draws : unit_draws RealEnv.env.
Proof.
  intros g. change (0 <= / 2 ^ S g <= 1)%R.
  assert (Hp : (1 <= 2 ^ S g)%R).
  { apply pow_R1_Rle. lra. }
  split.
  - left. apply Rinv_0_lt_compat. lra.
  - rewrite <- Rinv_1. apply Rinv_le_contravar; lra.
Qed.

Lemma samples_lie_in_the_prior_witness :
  Forall (fun p => (0 <= p <= 1)%R)
    (Calibration.mortalitySamples
       (self (fst (Calibration.sample_posterior RealEnv.env RealEnv.scenario
                     5 (RealEnv.start Calibration.init))))).
Proof.
  apply (@samples_lie_in_the_prior nat RealEnv.env RealEnv.scenario 5
           (RealEnv.start Calibration.init) RealEnv_unit_draws).
  simpl. lra.
Defined.


Lemma effective_sample_size_of_raw_weights_witness :
  Calibration.get_effective_sample_size
    (self (fst (Calibration.sample_posterior RealEnv.env RealEnv.scenario 5
                  (RealEnv.start Calibration.init))))
  = Ok (py_sum
          (weights_of_means RealEnv.env RealEnv.scenario 5
             (stub_outcomes 20%R (prior_draws RealEnv.env RealEnv.scenario)))
        * py_sum
            (weights_of_means RealEnv.env RealEnv.scenario 5
               (stub_outcomes 20%R (prior_draws RealEnv.env RealEnv.scenario)))
        / py_sum
            (np_square
               (weights_of_means RealEnv.env RealEnv.scenario 5
                  (stub_outcomes 20%R
                     (prior_draws RealEnv.env RealEnv.scenario)))))%R.
Proof.
  apply (@effective_sample_size_of_raw_weights nat RealEnv.env
           RealEnv.scenario 5 (RealEnv.start Calibration.init)
           (stub_outcomes 20%R (prior_draws RealEnv.env RealEnv.scenario))).
  - reflexivity.
  - simpl. lia.
  - apply Rgt_not_eq, Rlt_gt, py_sum_pos.
    + unfold weights_of_means. apply Forall_map, Forall_forall.
      intros i _. apply gauss_pdf_pos. simpl. lra.
    + unfold weights_of_means. simpl seq. discriminate.
Defined.

(** ** CalibratedModel.simulate: every way a call can go *)

Section SimulateRun.
Context {F G : Type} `{Number F}.
Variable E : Env F G.
Import CalibratedModel.

Local Abbreviation world := (World F G (t F)).
Local Abbreviation rows_exist w :=
  (Forall (fun i => i < length (cohortIDs (self w)) /\
                    i < length (mortalityProbs (self w)))).

Lemma refused_resampling_core (k size steps : nat)
  (ids_given : option (list Z)) (w : world) (g1 : G) (e : exn) :
  np_random_choice E (rng w) (length (weights (self w))) k (weights (self w))
    = (g1, Raise e) ->
  simulate E k size steps ids_given w
  = ({| self := self w; rng := g1; files := files w |}, Raise e).
Proof.
  intros Hchoice. unfold simulate, bind at 1, gets.
  unfold bind at 1, with_rng at 1. now rewrite Hchoice.
Qed.

(** A call whose resampling succeeded, up to the answer of the simulator. *)
Lemma simulate_run (k size steps : nat) (ids_given : option (list Z))
  (w : world) (g1 : G) (idx : list nat) :
  np_random_choice E (rng w) (length (weights (self w))) k (weights (self w))
    = (g1, Ok idx) ->
  rows_exist w idx ->
  let accumulated := resampledMortalityProb (self w) ++ picked (self w) idx in
  let ids_used := match ids_given with
                  | None => map (fun i => nth i (cohortIDs (self w)) 0%Z) idx
                  | Some given => given
                  end in
  let simulated :=
    MultiCohort_simulate E g1 ids_used (repeat size k) accumulated steps in
  simulate E k size steps ids_given w =
  match MultiCohort_init E ids_used (repeat size k) accumulated with
  | Raise e =>
      (with_resampled {| self := self w; rng := g1; files := files w |}
         accumulated, Raise e)
  | Ok _ =>
      ({| self := {| cohortIDs := cohortIDs (self w);
                     weights := weights (self w);
                     mortalityProbs := mortalityProbs (self w);
                     resampledMortalityProb := accumulated;
                     multiCohorts :=
                       Some {| ids := ids_used;
                               pop_sizes := repeat size k;
                               meanSurvivalTimes :=
                                 match snd simulated with
                                 | Ok times => Some times
                                 | Raise _ => None
                                 end |} |};
          rng := fst simulated;
          files := files w |},
       and_then (snd simulated) (fun _ => Ok tt))
  end.
Proof.
  intros Hchoice Hidx accumulated ids_used simulated.
  unfold simulate, bind at 1, gets.
  unfold bind at 1, with_rng at 1. rewrite Hchoice.
  set (w1 := {| self := self w; rng := g1; files := files w |}).
  unfold bind at 1. rewrite (resample_appends w1 Hidx).
  change (resampledMortalityProb (self w1) ++ picked (self w1) idx)
    with accumulated.
  cbv zeta. unfold bind at 1, gets. cbn [ids pop_sizes].
  change (resampledMortalityProb (self (with_resampled w1 accumulated)))
    with accumulated.
  change (cohortIDs (self w1)) with (cohortIDs (self w)).
  fold ids_used.
  unfold bind at 1, lift.
  destruct (MultiCohort_init E ids_used (repeat size k) accumulated)
    as [[] | e]; [| reflexivity].
  unfold bind at 1, set_multiCohorts at 1, update, modify.
  unfold bind at 1, with_rng. cbn [rng with_resampled w1]. fold simulated.
  destruct simulated as [g2 [times | e]]; reflexivity.
Qed.

(** X10. The simulator is built after the resampling, on
    [num_of_simulated_cohorts] population sizes and on the whole accumulated
    list, whose length is the earlier length plus
    [num_of_simulated_cohorts] (and, without [cohort_ids], on
    [num_of_simulated_cohorts] ids).  When its constructor refuses them the
    call ends with that error, the resampled values stay appended and the
    multi cohort of the model is the earlier one. *)
Theorem refused_multi_cohort_keeps_the_values (k size steps : nat)
  (ids_given : option (list Z)) (w : world) (g1 : G) (idx : list nat)
  (e : exn) :
  np_random_choice E (rng w) (length (weights (self w))) k (weights (self w))
    = (g1, Ok idx) ->
  length idx = k ->
  rows_exist w idx ->
  let accumulated := resampledMortalityProb (self w) ++ picked (self w) idx in
  let ids_used := match ids_given with
                  | None => map (fun i => nth i (cohortIDs (self w)) 0%Z) idx
                  | Some given => given
                  end in
  MultiCohort_init E ids_used (repeat size k) accumulated = Raise e ->
  simulate E k size steps ids_given w
  = (with_resampled {| self := self w; rng := g1; files := files w |}
       accumulated, Raise e) /\
  length (repeat size k) = k /\
  length accumulated = length (resampledMortalityProb (self w)) + k /\
  (ids_given = None -> length ids_used = k).
Proof.
  intros Hchoice Hlen Hidx accumulated ids_used Hinit.
  rewrite (@simulate_run k size steps ids_given w g1 idx Hchoice Hidx).
  cbv zeta.
  fold accumulated ids_used. rewrite Hinit.
  split; [reflexivity |]. split; [apply repeat_length |]. split.
  - unfold accumulated, picked. now rewrite length_app, length_map, Hlen.
  - intros ->. unfold ids_used. now rewrite length_map.
Qed.

(** A call that returns has resampled. *)
Lemma returned_has_resampled (k size steps : nat)
  (ids_given : option (list Z)) (w w' : world) :
  simulate E k size steps ids_given w = (w', Ok tt) ->
  exists g1 idx,
    np_random_choice E (rng w) (length (weights (self w))) k
      (weights (self w)) = (g1, Ok idx).
Proof.
  intros Hrun.
  destruct (np_random_choice E (rng w) (length (weights (self w))) k
              (weights (self w))) as [g1 [idx | e]] eqn:Hchoice.
  - now exists g1, idx.
  - rewrite (@refused_resampling_core k size steps ids_given w g1 e Hchoice)
      in Hrun. discriminate.
Qed.

End SimulateRun.

(** One value is there from an earlier call; the strict simulator is then
    offered two ids and three probabilities. *)
Lemma refused_multi_cohort_keeps_the_values_witness :
  CalibratedModel.simulate strict_env 2 10 5 None
    (FloatEnv.start FloatEnv.resampled_once)
  = ({| self := {| CalibratedModel.cohortIDs := [0; 1]%Z;
                   CalibratedModel.weights := [0.5; 0.5]%float;
                   CalibratedModel.mortalityProbs := [0.2; 0.8]%float;
                   CalibratedModel.resampledMortalityProb :=
                     [0.8; 0.2; 0.8]%float;
                   CalibratedModel.multiCohorts := None |};
        rng := 2;
        files := [] |},
     Raise ValueError).
Proof.
  set (w := FloatEnv.start FloatEnv.resampled_once).
  assert (Hchoice :
            np_random_choice strict_env (rng w)
              (length (CalibratedModel.weights (self w))) 2
              (CalibratedModel.weights (self w)) = (2, Ok [0; 1]))
    by reflexivity.
  assert (Hrows :
            Forall (fun i =>
                      i < length (CalibratedModel.cohortIDs (self w)) /\
                      i < length (CalibratedModel.mortalityProbs (self w)))
                   [0; 1])
    by (repeat constructor).
  assert (Hinit :
            MultiCohort_init strict_env
              (map (fun i => nth i (CalibratedModel.cohortIDs (self w)) 0%Z)
                 [0; 1])
              (repeat 10 2)
              (CalibratedModel.resampledMortalityProb (self w)
               ++ picked (self w) [0; 1]) = Raise ValueError)
    by reflexivity.
  destruct (@refused_multi_cohort_keeps_the_values float nat _ strict_env
              2 10 5 None w 2 [0; 1] ValueError Hchoice eq_refl Hrows Hinit)
    as [Hrun _].
  exact Hrun.
Defined.

(** ** CalibratedModel.simulate: any number of calls *)

Section Calls.
Context {F G : Type} `{Number F}.
Variable E : Env F G.
Hypothesis Hcontract : choice_contract E.
Import CalibratedModel.

Local Abbreviation world := (World F G (t F)).

Lemma simulate_step (k size steps : nat) (ids_given : option (list Z))
  (w w' : world) :
  well_formed (self w) ->
  simulate E k size steps ids_given w = (w', Ok tt) ->
  length (resampledMortalityProb (self w'))
  = length (resampledMortalityProb (self w)) + k /\
  cohortIDs (self w') = cohortIDs (self w) /\
  weights (self w') = weights (self w) /\
  mortalityProbs (self w') = mortalityProbs (self w).
Proof.
  intros [Hwf1 Hwf2] Hrun.
  destruct (returned_has_resampled E k size steps ids_given w Hrun)
    as [g1 [idx Hchoice]].
  destruct (Hcontract _ _ _ _ Hchoice) as [Hlen Hbelow].
  assert (Hidx : Forall (fun i => i < length (cohortIDs (self w)) /\
                                  i < length (mortalityProbs (self w))) idx).
  { eapply Forall_impl; [| exact Hbelow].
    intros i Hi. simpl in Hi. rewrite Hwf1, Hwf2. split; exact Hi. }
  destruct (@simulate_appends F G _ E k size steps ids_given w g1 idx
              Hchoice Hlen Hidx) as [_ Hcount].
  pose proof (simulate_frame E k size steps ids_given w) as Hframe.
  rewrite Hrun in Hcount, Hframe. simpl in Hcount, Hframe.
  split; [exact Hcount | exact Hframe].
Qed.

(** X9. When [np.random.choice] refuses to resample (numpy does for weights
    that do not sum to 1), the call ends with that error and the model is
    untouched; and this is the only way a call for at least one cohort
    leaves the model as it was: once the resampling has succeeded the
    accumulated list has grown, however the call ends. *)
Theorem untouched_iff_resampling_refused (k size steps : nat)
  (ids_given : option (list Z)) (w : world) :
  well_formed (self w) ->
  0 < k ->
  (forall g1 e,
      np_random_choice E (rng w) (length (weights (self w))) k
        (weights (self w)) = (g1, Raise e) ->
      simulate E k size steps ids_given w
      = ({| self := self w; rng := g1; files := files w |}, Raise e)) /\
  (self (fst (simulate E k size steps ids_given w)) = self w <->
   exists g1 e,
     np_random_choice E (rng w) (length (weights (self w))) k
       (weights (self w)) = (g1, Raise e)).
Proof.
  intros [Hwf1 Hwf2] Hk. split.
  - intros g1 e Hchoice. now apply refused_resampling_core.
  - split.
    + intros Hsame.
      destruct (np_random_choice E (rng w) (length (weights (self w))) k
                  (weights (self w))) as [g1 [idx | e]] eqn:Hchoice.
      2: now exists g1, e.
      destruct (Hcontract _ _ _ _ Hchoice) as [Hlen Hbelow].
      assert (Hidx : Forall (fun i => i < length (cohortIDs (self w)) /\
                                      i < length (mortalityProbs (self w)))
                            idx).
      { eapply Forall_impl; [| exact Hbelow].
        intros i Hi. simpl in Hi. rewrite Hwf1, Hwf2. split; exact Hi. }
      destruct (@simulate_appends F G _ E k size steps ids_given w g1 idx
                  Hchoice Hlen Hidx) as [_ Hcount].
      rewrite Hsame in Hcount. lia.
    + intros [g1 [e Hchoice]].
      now rewrite (@refused_resampling_core F G E k size steps ids_given w
                     g1 e Hchoice).
Qed.

(** X11. On a model whose three columns have one length, and with numpy's
    guarantee on [np.random.choice], any sequence of calls that all return
    leaves as many accumulated values as before plus the sum of the
    [num_of_simulated_cohorts] of the calls, and the loaded table as it
    was. *)
Theorem simulate_all_accumulates (calls : list call) (w w' : world)
  (done : list unit) :
  well_formed (self w) ->
  simulate_all E calls w = (w', Ok done) ->
  length (resampledMortalityProb (self w'))
  = length (resampledMortalityProb (self w))
    + list_sum (map num_of_simulated_cohorts calls) /\
  cohortIDs (self w') = cohortIDs (self w) /\
  weights (self w') = weights (self w) /\
  mortalityProbs (self w') = mortalityProbs (self w).
Proof.
  revert w w' done. induction calls as [| c rest IH]; intros w w' done Hwf.
  - unfold simulate_all. simpl. unfold ret. intros [= <- _].
    simpl. repeat split. lia.
  - unfold simulate_all in *. simpl for_each. unfold bind at 1.
    destruct (simulate E (num_of_simulated_cohorts c) (cohort_size c)
                (time_steps c) (cohort_ids c) w) as [w1 [[] | e]] eqn:Hfirst;
      [| discriminate].
    unfold bind at 1.
    destruct (for_each rest _ w1) as [w2 [ys | e]] eqn:Hrest;
      [| discriminate].
    unfold ret. intros [= <- _].
    destruct (@simulate_step _ _ _ _ w w1 Hwf Hfirst) as [Hlen1 [Hc [Hw Hp]]].
    assert (Hwf1 : well_formed (self w1)).
    { destruct Hwf as [Ha Hb]. split; rewrite ?Hc, ?Hw, ?Hp; assumption. }
    destruct (IH w1 w2 ys Hwf1 Hrest) as [Hlen2 [Hc2 [Hw2 Hp2]]].
    simpl map. simpl list_sum.
    rewrite Hlen2, Hlen1, Hc2, Hw2, Hp2, Hc, Hw, Hp.
    repeat split. lia.
Qed.

End Calls.

Lemma FloatEnv_choice_contract : choice_contract FloatEnv.env.
Proof.
  intros g n size p g' idx. simpl. unfold FloatEnv.choice.
  destruct (n =? 0) eqn:Hn; simpl; [discriminate |].
  destruct (_ || _ || _); [discriminate |].
  intros [= _ <-]. split.
  - now rewrite length_map, length_seq.
  - apply Forall_forall. intros i Hi. apply in_map_iff in Hi.
    destruct Hi as [j [<- _]]. apply Nat.mod_upper_bound.
    now apply Nat.eqb_neq.
Qed.

(** The weights of this table sum to one half and numpy refuses them. *)
Lemma untouched_iff_resampling_refused_witness :
  CalibratedModel.simulate FloatEnv.env 2 10 5 None
    (FloatEnv.start half_loaded)
  = (FloatEnv.start half_loaded, Raise ValueError).
Proof.
  assert (Hwf : well_formed (self (FloatEnv.start half_loaded)))
    by (split; reflexivity).
  assert (Hk : 0 < 2) by lia.
  destruct (@untouched_iff_resampling_refused float nat _ FloatEnv.env
              FloatEnv_choice_contract 2 10 5 None
              (FloatEnv.start half_loaded) Hwf Hk) as [Hrefused _].
  apply (Hrefused 0 ValueError). reflexivity.
Defined.

(** Two calls, for two and for three cohorts. *)
Lemma simulate_all_accumulates_witness :
  length
    (CalibratedModel.resampledMortalityProb
       (self (fst (simulate_all FloatEnv.env
                     [ {| num_of_simulated_cohorts := 2; cohort_size := 10;
                          time_steps := 5; cohort_ids := None |};
                       {| num_of_simulated_cohorts := 3; cohort_size := 10;
                          time_steps := 5; cohort_ids := Some [7; 8; 9]%Z |} ]
                     (FloatEnv.start FloatEnv.loaded)))))
  = 0 + list_sum [2; 3].
Proof.
  set (calls := [ {| num_of_simulated_cohorts := 2; cohort_size := 10;
                     time_steps := 5; cohort_ids := None |};
                  {| num_of_simulated_cohorts := 3; cohort_size := 10;
                     time_steps := 5; cohort_ids := Some [7; 8; 9]%Z |} ]).
  set (w := FloatEnv.start FloatEnv.loaded).
  assert (Hwf : well_formed (self w)) by (split; reflexivity).
  assert (Hrun : simulate_all FloatEnv.env calls w
                 = (fst (simulate_all FloatEnv.env calls w), Ok [tt; tt])).
  { apply run_of_outcome. reflexivity. }
  destruct (@simulate_all_accumulates float nat _ FloatEnv.env
              FloatEnv_choice_contract calls w _ _ Hwf Hrun) as [Hlen _].
  exact Hlen.
Defined.

(** ** CalibratedModel: loading integer ids *)

Section IntegerIds.
Local Open Scope R_scope.

Lemma R_to_int_IZR (z : Z) :
  (- 2 ^ 63 <= z < 2 ^ 63)%Z -> R_to_int (IZR z) = z.
Proof.
  intros Hz. unfold R_to_int. cbv zeta.
  assert (Htrunc : (if Rle_dec 0 (IZR z) then Int_part (IZR z)
                    else (- Int_part (- IZR z))%Z) = z).
  { destruct (Rle_dec 0 (IZR z)) as [_ | _].
    - symmetry. apply Int_part_spec. lra.
    - rewrite <- opp_IZR.
      replace (Int_part (IZR (- z))) with (- z)%Z; [lia |].
      apply Int_part_spec. lra. }
  rewrite Htrunc.
  destruct (Z.leb_spec (- 2 ^ 63) z) as [_ | Hlow]; [| lia].
  destruct (Z.ltb_spec z (2 ^ 63)) as [_ | Hhigh]; [reflexivity | lia].
Qed.

(** X12, in exact arithmetic. Integer ids of at most 2^53 in absolute value,
    the integers a binary64 column holds one by one and well inside the
    64-bit range of [astype(int)], come back unchanged, and the default ratio
    leaves the parameters as they are: a model built, with the default
    ratio, from columns of such ids, weights and parameters holds exactly
    these columns, an empty accumulated list and no multi cohort. *)
Theorem init_of_small_integer_ids {G : Type} (E : Env R G) (file : string)
  (ids : list Z) (ws ps : list R) :
  Forall (fun z => (- 2 ^ 53 <= z <= 2 ^ 53)%Z) ids ->
  read_csv_cols E file 3 true true = Ok [map IZR ids; ws; ps] ->
  CalibratedModel.init E file None
  = Ok {| CalibratedModel.cohortIDs := ids;
          CalibratedModel.weights := ws;
          CalibratedModel.mortalityProbs := ps;
          CalibratedModel.resampledMortalityProb := [];
          CalibratedModel.multiCohorts := None |}.
Proof.
  intros Hids Hread. rewrite (init_of_columns E file None Hread).
  do 2 f_equal.
  - rewrite map_map. rewrite <- (map_id ids) at 2.
    apply map_ext_in. intros z Hz.
    rewrite Forall_forall in Hids. specialize (Hids z Hz).
    apply R_to_int_IZR. lia.
  - rewrite <- (map_id ps) at 2. apply map_ext. intros p. simpl. ring.
Qed.

Lemma init_of_small_integer_ids_witness :
  CalibratedModel.init
    (table_env [map IZR [0; 1; 2]%Z; [/ 2; / 4; / 4]; [/ 5; / 2; 4 / 5]])
    "CalibrationResults.csv" None
  = Ok {| CalibratedModel.cohortIDs := [0; 1; 2]%Z;
          CalibratedModel.weights := [/ 2; / 4; / 4];
          CalibratedModel.mortalityProbs := [/ 5; / 2; 4 / 5];
          CalibratedModel.resampledMortalityProb := [];
          CalibratedModel.multiCohorts := None |}.
Proof.
  apply (@init_of_small_integer_ids nat
           (table_env [map IZR [0; 1; 2]%Z; [/ 2; / 4; / 4];
                       [/ 5; / 2; 4 / 5]])).
  - repeat constructor; lia.
  - reflexivity.
Defined.

End IntegerIds.

(** ** Calibration: the sample size before and after a run *)

Section SampleSizeAfterRun.
Context {F G : Type} `{Number F}.
Variable E : Env F G.
Variable Sets : Settings F.
Import Calibration.

(** X13. On a new [Calibration] the effective sample size cannot be asked
    for: the weights are still a Python list and squaring it is a
    [TypeError].  That stays so after a call of [sample_posterior] that
    failed before the normalization, be it in the draw, in the simulator or
    in the likelihood loop; after a call that got through the likelihood
    loop the method returns a number, also when the report failed. *)
Theorem effective_sample_size_after_first_run (n_samples : nat) (g : G)
  (written : list (string * list (list (cell F)))) :
  let after :=
    get_effective_sample_size
      (self (fst (sample_posterior E Sets n_samples
                    {| self := init; rng := g; files := written |}))) in
  get_effective_sample_size (@init F) = Raise TypeError /\
  match means_of_run E Sets n_samples with
  | Ok means =>
      if n_samples <=? length means
      then exists ess, after = Ok ess
      else after = Raise TypeError
  | Raise _ => after = Raise TypeError
  end.
Proof.
  cbv zeta. split; [reflexivity |].
  rewrite (sample_posterior_run E Sets n_samples _); cbv zeta.
  unfold means_of_run, simulated_means, and_then.
  destruct (fis_finite (fsub (PRIOR_U Sets) (PRIOR_L Sets))); cbn [negb];
    [| reflexivity].
  destruct (MultiCohort_init E _ _ _) as [[] | e]; [| reflexivity].
  destruct (snd (MultiCohort_simulate E _ _ _ _ _)) as [means | e];
    [| reflexivity].
  destruct (n_samples <=? length means); [| reflexivity].
  destruct (PRIOR_N Sets <=? n_samples); eexists; reflexivity.
Qed.

End SampleSizeAfterRun.

(** ** Calibration.sample_posterior: a second run *)

Section SecondRun.
Context {F G : Type} `{Number F}.
Variable E : Env F G.
Variable Sets : Settings F.
Import Calibration.

Local Abbreviation world := (World F G (t F)).

(** X14. Calling [sample_posterior] again with the same [n_samples] ends
    the same way and leaves the same object and generator as the first call;
    when the calls return, the second adds a second copy of the report. *)
Theorem second_run_repeats_the_first (n_samples : nat) (w : world) :
  let first := sample_posterior E Sets n_samples w in
  let second := sample_posterior E Sets n_samples (fst first) in
  snd second = snd first /\
  self (fst second) = self (fst first) /\
  rng (fst second) = rng (fst first) /\
  files (fst second)
  = match snd first with
    | Ok _ =>
        files (fst first) ++
        [("CalibrationResults.csv"%string,
          csv_header ::
          map (report_row (self (fst first))) (seq 0 (PRIOR_N Sets)))]
    | Raise _ => files (fst first)
    end.
Proof.
  cbv zeta.
  rewrite (sample_posterior_run E Sets n_samples w). cbv zeta.
  destruct (fis_finite (fsub (PRIOR_U Sets) (PRIOR_L Sets))) eqn:Hfinite;
    cbn [negb].
  2: { cbn [fst]. rewrite (sample_posterior_run E Sets n_samples _).
       cbv zeta. rewrite Hfinite. repeat split. }
  destruct (MultiCohort_init E _ _ _) as [[] | e] eqn:Hbuilt.
  2: { cbn [fst]. rewrite (sample_posterior_run E Sets n_samples _).
       cbv zeta. rewrite Hfinite, Hbuilt. repeat split. }
  destruct (MultiCohort_simulate E _ _ _ _ _) as [g' [means | e]] eqn:Hsim;
    cbn [fst snd].
  2: { rewrite (sample_posterior_run E Sets n_samples _).
       cbv zeta. rewrite Hfinite, Hbuilt, Hsim. repeat split. }
  destruct (n_samples <=? length means) eqn:Hmeans.
  2: { cbn [fst]. rewrite (sample_posterior_run E Sets n_samples _).
       cbv zeta. rewrite Hfinite, Hbuilt, Hsim. cbn [fst snd negb].
       rewrite Hmeans.
       repeat split. }
  destruct (PRIOR_N Sets <=? n_samples) eqn:Hprior;
    cbn [fst]; rewrite (sample_posterior_run E Sets n_samples _);
    cbv zeta; rewrite Hfinite, Hbuilt, Hsim; cbn [fst snd negb];
    rewrite Hmeans, Hprior;
    repeat split.
Qed.

End SecondRun.

(** ** CalibratedModel.simulate: where the accumulated values come from *)

Section Members.
Context {F G : Type} `{Number F}.
Variable E : Env F G.
Import CalibratedModel.

Local Abbreviation world := (World F G (t F)).

Lemma getitem_In {A} (l : list A) (i : Z) (a : A) :
  getitem l i = Ok a -> In a l.
Proof.
  unfold getitem. destruct (_ && _); [| discriminate].
  destruct (nth_error l _) as [b |] eqn:Hnth; [| discriminate].
  intros [= <-]. eapply nth_error_In, Hnth.
Qed.

(** The loop of lines 133-137, however it ends: what it appends are
    mortality probabilities of the table, and it changes nothing else. *)
Lemma resample_members (idx : list nat) (w : world) :
  exists more,
    fst (resample idx w)
    = with_resampled w (resampledMortalityProb (self w) ++ more) /\
    Forall (fun p => In p (mortalityProbs (self w))) more.
Proof.
  revert w. induction idx as [| i idx IH]; intros w.
  - exists []. split; [| constructor]. simpl. rewrite app_nil_r.
    destruct w as [[? ? ? ? ?] ? ?]. reflexivity.
  - unfold resample in *. simpl for_each. unfold bind at 1 2, reads.
    destruct (getitem (cohortIDs (self w)) (Z.of_nat i)) as [id | e].
    2: { exists []. split; [| constructor]. simpl. rewrite app_nil_r.
         destruct w as [[? ? ? ? ?] ? ?]. reflexivity. }
    unfold bind at 1.
    destruct (getitem (mortalityProbs (self w)) (Z.of_nat i)) as [p | e]
      eqn:Hp.
    2: { exists []. split; [| constructor]. simpl. rewrite app_nil_r.
         destruct w as [[? ? ? ? ?] ? ?]. reflexivity. }
    unfold bind at 1, append_resampled, update, modify.
    unfold bind at 1, ret.
    set (w1 := {| self := _; rng := rng w; files := files w |}).
    destruct (IH w1) as [more [Hfst Hall]].
    exists (p :: more). split.
    + unfold bind at 1.
      destruct (for_each idx _ w1) as [w2 [ys | e]]; simpl in *;
        rewrite Hfst; unfold with_resampled, w1; simpl;
        now rewrite <- app_assoc.
    + constructor; [apply (getitem_In _ _ Hp) | exact Hall].
Qed.

(** X15. Resampling invents no value: whatever the arguments and however
    the call ends, the accumulated list after a call is the list before it
    followed by mortality probabilities of the loaded table. *)
Theorem simulate_appends_table_values (k size steps : nat)
  (ids_given : option (list Z)) (w : world) :
  exists more,
    resampledMortalityProb (self (fst (simulate E k size steps ids_given w)))
    = resampledMortalityProb (self w) ++ more /\
    Forall (fun p => In p (mortalityProbs (self w))) more.
Proof.
  unfold simulate, bind at 1, gets.
  unfold bind at 1, with_rng at 1.
  destruct (np_random_choice E (rng w) (length (weights (self w))) k
              (weights (self w))) as [g1 [idx | e]].
  2: { exists []. split; [now rewrite app_nil_r | constructor]. }
  set (w1 := {| self := self w; rng := g1; files := files w |}).
  destruct (resample_members idx w1) as [more [Hfst Hall]].
  exists more. split; [| exact Hall].
  unfold bind at 1.
  destruct (resample idx w1) as [w2 [rids | e]]; simpl in Hfst; subst w2;
    [| reflexivity].
  apply (@after_resample_keeps F G E
           (resampledMortalityProb (self w) ++ more) k size steps ids_given
           rids (with_resampled w1 (resampledMortalityProb (self w1) ++ more))).
  reflexivity.
Qed.

End Members.
